(** * bybit/asset: cursor-paginated asset queries

    A shallow embedding of [bybit/asset/asset.go].  The five accessors of
    the [Asset] interface are translated one by one; the transport client
    ([client.Get]), the JSON codec and the response struct declarations are
    collaborators that live outside this file and enter as section
    variables.  Go's [for { ... }] loops carry a fuel argument: [None]
    means the loop is still running when the fuel is gone. *)

From Stdlib Require Import ZArith String Ascii DecimalString DecimalZ.
From stdpp Require Import base strings gmap list.

Set Warnings "-register-all".

Local Open Scope Z_scope.
Local Open Scope string_scope.
Local Open Scope list_scope.

(** ** Go values used by the package *)

(** An [error] value: either one created by a collaborator (identified by
    its message) or one built by [fmt.Errorf] with the [%w] verb, which
    keeps the cause reachable through [Unwrap]. *)
Inductive error : Type :=
| errorString (s : string)
| wrapError (msg : string) (err : error).

Definition Error (e : error) : string :=
  match e with
  | errorString s => s
  | wrapError msg _ => msg
  end.

Definition Unwrap (e : error) : option error :=
  match e with
  | errorString _ => None
  | wrapError _ err => Some err
  end.

(** [fmt.Errorf(context ++ ": %w", err)]. *)
Definition Errorf (context : string) (err : error) : error :=
  wrapError (context +:+ ": " +:+ Error err) err.

(** [strconv.Itoa] and [strconv.FormatInt(_, 10)]: signed base-10 digits. *)
Definition Itoa (i : Z) : string := NilZero.string_of_int (Z.to_int i).

Definition FormatInt10 (i : Z) : string := Itoa i.

(** Reading a base-10 numeral back, used to state what "base 10" means. *)
Definition ParseInt10 (s : string) : option Z :=
  option_map Z.of_int (NilZero.int_of_string s).

(** [client.Params] is [map[string]string]. *)
Abbreviation Params := (gmap string string).

(** One call of [client.Get]: the path and the parameter mapping. *)
Abbreviation Call := (string * Params)%type.

(** [if ptr != nil { queryParams[key] = f (deref ptr) }]. *)
Definition setIfPresent {A} (key : string) (f : A -> string) (ptr : option A)
    (queryParams : Params) : Params :=
  match ptr with
  | Some v => <[key := f v]> queryParams
  | None => queryParams
  end.

(** ** Request structs

    Optional fields are Go pointers; [None] is the nil pointer. *)

Module GetCoinExchangeRecordsRequest.
Record t : Type := mk {
  FromCoin : option string;
  ToCoin : option string;
  Limit : option Z;
  Cursor : option string
}.

(** [req.Cursor = &c]. *)
Definition setCursor (req : t) (c : string) : t :=
  mk (FromCoin req) (ToCoin req) (Limit req) (Some c).

(** Lines 39-51. *)
Definition queryParams (req : t) : Params :=
  let queryParams : Params := ∅ in
  let queryParams := setIfPresent "fromCoin" id (FromCoin req) queryParams in
  let queryParams := setIfPresent "toCoin" id (ToCoin req) queryParams in
  let queryParams := setIfPresent "limit" Itoa (Limit req) queryParams in
  let queryParams := setIfPresent "cursor" id (Cursor req) queryParams in
  queryParams.
End GetCoinExchangeRecordsRequest.

Module GetDeliveryRecordRequest.
Record t : Type := mk {
  Category : string;
  Symbol : option string;
  StartTime : option Z;
  EndTime : option Z;
  ExpDate : option string;
  Limit : option Z;
  Cursor : option string
}.

Definition setCursor (req : t) (c : string) : t :=
  mk (Category req) (Symbol req) (StartTime req) (EndTime req) (ExpDate req)
     (Limit req) (Some c).

(** Lines 90-109. *)
Definition queryParams (req : t) : Params :=
  let queryParams : Params := ∅ in
  let queryParams := <["category" := Category req]> queryParams in
  let queryParams := setIfPresent "symbol" id (Symbol req) queryParams in
  let queryParams := setIfPresent "startTime" FormatInt10 (StartTime req) queryParams in
  let queryParams := setIfPresent "endTime" FormatInt10 (EndTime req) queryParams in
  let queryParams := setIfPresent "expDate" id (ExpDate req) queryParams in
  let queryParams := setIfPresent "limit" Itoa (Limit req) queryParams in
  let queryParams := setIfPresent "cursor" id (Cursor req) queryParams in
  queryParams.
End GetDeliveryRecordRequest.

Module GetSessionSettlementRecordRequest.
Record t : Type := mk {
  Category : string;
  Symbol : option string;
  StartTime : option Z;
  EndTime : option Z;
  Limit : option Z;
  Cursor : option string
}.

(** Lines 144-160. *)
Definition queryParams (req : t) : Params :=
  let queryParams : Params := ∅ in
  let queryParams := <["category" := Category req]> queryParams in
  let queryParams := setIfPresent "symbol" id (Symbol req) queryParams in
  let queryParams := setIfPresent "startTime" FormatInt10 (StartTime req) queryParams in
  let queryParams := setIfPresent "endTime" FormatInt10 (EndTime req) queryParams in
  let queryParams := setIfPresent "limit" Itoa (Limit req) queryParams in
  let queryParams := setIfPresent "cursor" id (Cursor req) queryParams in
  queryParams.
End GetSessionSettlementRecordRequest.

Module GetAssetInfoRequest.
Record t : Type := mk {
  AccountType : string;
  Coin : option string
}.

(** Lines 201-205. *)
Definition queryParams (req : t) : Params :=
  let queryParams : Params := ∅ in
  let queryParams := <["accountType" := AccountType req]> queryParams in
  let queryParams := setIfPresent "coin" id (Coin req) queryParams in
  queryParams.
End GetAssetInfoRequest.

Module GetAllCoinsBalanceRequest.
Record t : Type := mk {
  MemberID : option string;
  AccountType : string;
  Coin : option string;
  WithBonus : option Z
}.

(** Lines 224-234. *)
Definition queryParams (req : t) : Params :=
  let queryParams : Params := ∅ in
  let queryParams := setIfPresent "memberId" id (MemberID req) queryParams in
  let queryParams := <["accountType" := AccountType req]> queryParams in
  let queryParams := setIfPresent "coin" id (Coin req) queryParams in
  let queryParams := setIfPresent "withBonus" Itoa (WithBonus req) queryParams in
  queryParams.
End GetAllCoinsBalanceRequest.

(** ** Response structs

    The response struct declarations are not part of [asset.go]; the fields
    below are the ones the code reads and writes.  The three paginated
    responses share one shape ([OrderBody] is the name of the record list
    of the exchange endpoint, [List] that of the two others). *)

Record PageResult (R : Type) : Type := mkPageResult {
  List : list R;
  NextPageCursor : string
}.
Arguments mkPageResult {R}.
Arguments List {R}.
Arguments NextPageCursor {R}.

Record PageResponse (R : Type) : Type := mkPageResponse {
  RetCode : Z;
  RetMsg : string;
  Result : PageResult R
}.
Arguments mkPageResponse {R}.
Arguments RetCode {R}.
Arguments RetMsg {R}.
Arguments Result {R}.

Abbreviation OrderBody := List (only parsing).

(** ** Collaborators

    [respond] is the transport client: what [client.Get] answers to a call,
    given the calls made before it (any deterministic client is such a
    function).  [json_Marshal] re-encodes the generic response,
    [json_Unmarshal_*] decode the encoded form into the struct the call
    site asks for. *)
Class Collaborators : Type := {
  Response : Type;
  Data : Type;
  CoinExchangeRecord : Type;
  DeliveryRecordEntry : Type;
  SessionSettlementRecord : Type;
  GetAssetInfoResponse : Type;
  GetAllCoinsBalanceResponse : Type;
  respond : list Call -> Call -> error + Response;
  json_Marshal : Response -> error + Data;
  json_Unmarshal_CoinExchange : Data -> error + PageResponse CoinExchangeRecord;
  json_Unmarshal_Delivery : Data -> error + PageResponse DeliveryRecordEntry;
  json_Unmarshal_Settlement : Data -> error + PageResponse SessionSettlementRecord;
  json_Unmarshal_AssetInfo : Data -> error + GetAssetInfoResponse;
  json_Unmarshal_AllCoinsBalance : Data -> error + GetAllCoinsBalanceResponse
}.

(** What a Go function returning a pointer to [T] and an [error] hands back:
    [None] is [nil]. *)
Definition Returned (T : Type) : Type := option T * option error.

Section Asset.
Context `{Collaborators}.

(** [i.client.Get(path, params)]: the call is appended to the history. *)
Definition client_Get (h : list Call) (path : string) (params : Params)
    : list Call * (error + Response) :=
  (h ++ [(path, params)], respond h (path, params)).

(** Lines 37-77: the loop of [GetCoinExchangeRecords].  The state is the
    call history, the caller's request (written through [req]) and
    [allRecords]; the loop ends with [inl allRecords] at [break] and with
    [inr err] at an early [return nil, err]. *)
Fixpoint GetCoinExchangeRecords_for (fuel : nat) (h : list Call)
    (req : GetCoinExchangeRecordsRequest.t) (allRecords : list CoinExchangeRecord)
    : option (list Call * GetCoinExchangeRecordsRequest.t
              * (list CoinExchangeRecord + error)) :=
  match fuel with
  | O => None
  | S fuel =>
    let queryParams := GetCoinExchangeRecordsRequest.queryParams req in
    let '(h, got) := client_Get h "/v5/asset/exchange/order-record" queryParams in
    match got with
    | inl err => Some (h, req, inr (Errorf "error fetching coin exchange records" err))
    | inr response =>
      match json_Marshal response with
      | inl err => Some (h, req, inr err)
      | inr data =>
        match json_Unmarshal_CoinExchange data with
        | inl err =>
          Some (h, req, inr (Errorf "error parsing coin exchange records response" err))
        | inr exchangeRecordsResponse =>
          let allRecords := allRecords ++ OrderBody (Result exchangeRecordsResponse) in
          if decide (NextPageCursor (Result exchangeRecordsResponse) = "")
          then Some (h, req, inl allRecords)
          else
            let req := GetCoinExchangeRecordsRequest.setCursor req
                         (NextPageCursor (Result exchangeRecordsResponse)) in
            GetCoinExchangeRecords_for fuel h req allRecords
        end
      end
    end
  end.

(** Lines 78-82, shared by the three paginated calls: the final response
    is built from scratch around [allRecords]. *)
Definition finalResponse {R} (allRecords : list R) : PageResponse R :=
  {| RetCode := 0; RetMsg := "OK";
     Result := {| List := allRecords; NextPageCursor := "" |} |}.

Definition returnFrom {R} (exit : list R + error) : Returned (PageResponse R) :=
  match exit with
  | inl allRecords => (Some (finalResponse allRecords), None)
  | inr err => (None, Some err)
  end.

(** Lines 33-83.  The result carries the history after the call and the
    caller's request as the call leaves it. *)
Definition GetCoinExchangeRecords (fuel : nat) (h : list Call)
    (req : GetCoinExchangeRecordsRequest.t)
    : option (list Call * GetCoinExchangeRecordsRequest.t
              * Returned (PageResponse CoinExchangeRecord)) :=
  match GetCoinExchangeRecords_for fuel h req [] with
  | None => None
  | Some (h, req, exit) => Some (h, req, returnFrom exit)
  end.

(** Lines 88-135. *)
Fixpoint GetDeliveryRecords_for (fuel : nat) (h : list Call)
    (req : GetDeliveryRecordRequest.t) (allRecords : list DeliveryRecordEntry)
    : option (list Call * GetDeliveryRecordRequest.t
              * (list DeliveryRecordEntry + error)) :=
  match fuel with
  | O => None
  | S fuel =>
    let queryParams := GetDeliveryRecordRequest.queryParams req in
    let '(h, got) := client_Get h "/v5/asset/delivery-record" queryParams in
    match got with
    | inl err => Some (h, req, inr (Errorf "error fetching delivery records" err))
    | inr response =>
      match json_Marshal response with
      | inl err => Some (h, req, inr err)
      | inr data =>
        match json_Unmarshal_Delivery data with
        | inl err =>
          Some (h, req, inr (Errorf "error parsing delivery records response" err))
        | inr currentPageResponse =>
          let allRecords := allRecords ++ List (Result currentPageResponse) in
          if decide (NextPageCursor (Result currentPageResponse) = "")
          then Some (h, req, inl allRecords)
          else
            let req := GetDeliveryRecordRequest.setCursor req
                         (NextPageCursor (Result currentPageResponse)) in
            GetDeliveryRecords_for fuel h req allRecords
        end
      end
    end
  end.

(** Lines 84-142. *)
Definition GetDeliveryRecords (fuel : nat) (h : list Call)
    (req : GetDeliveryRecordRequest.t)
    : option (list Call * GetDeliveryRecordRequest.t
              * Returned (PageResponse DeliveryRecordEntry)) :=
  match GetDeliveryRecords_for fuel h req [] with
  | None => None
  | Some (h, req, exit) => Some (h, req, returnFrom exit)
  end.

(** Lines 166-190: here the loop state is the parameter mapping itself;
    the request is not touched. *)
Fixpoint GetSessionSettlementRecords_for (fuel : nat) (h : list Call)
    (queryParams : Params) (allRecords : list SessionSettlementRecord)
    : option (list Call * Params * (list SessionSettlementRecord + error)) :=
  match fuel with
  | O => None
  | S fuel =>
    let '(h, got) := client_Get h "/v5/asset/settlement-record" queryParams in
    match got with
    | inl err =>
      Some (h, queryParams, inr (Errorf "error fetching session settlement records" err))
    | inr response =>
      match json_Marshal response with
      | inl err => Some (h, queryParams, inr err)
      | inr data =>
        match json_Unmarshal_Settlement data with
        | inl err =>
          Some (h, queryParams,
                inr (Errorf "error parsing session settlement records response" err))
        | inr pageResponse =>
          let allRecords := allRecords ++ List (Result pageResponse) in
          if decide (NextPageCursor (Result pageResponse) = "")
          then Some (h, queryParams, inl allRecords)
          else
            let queryParams :=
              <["cursor" := NextPageCursor (Result pageResponse)]> queryParams in
            GetSessionSettlementRecords_for fuel h queryParams allRecords
        end
      end
    end
  end.

(** Lines 143-198. *)
Definition GetSessionSettlementRecords (fuel : nat) (h : list Call)
    (req : GetSessionSettlementRecordRequest.t)
    : option (list Call * GetSessionSettlementRecordRequest.t
              * Returned (PageResponse SessionSettlementRecord)) :=
  let queryParams := GetSessionSettlementRecordRequest.queryParams req in
  match GetSessionSettlementRecords_for fuel h queryParams [] with
  | None => None
  | Some (h, _, exit) => Some (h, req, returnFrom exit)
  end.

(** Lines 200-222: one request, no loop. *)
Definition GetAssetInfo (h : list Call) (req : GetAssetInfoRequest.t)
    : list Call * Returned GetAssetInfoResponse :=
  let queryParams := GetAssetInfoRequest.queryParams req in
  let '(h, got) := client_Get h "/v5/asset/transfer/query-asset-info" queryParams in
  match got with
  | inl err => (h, (None, Some (Errorf "error fetching asset information" err)))
  | inr response =>
    match json_Marshal response with
    | inl err => (h, (None, Some err))
    | inr data =>
      match json_Unmarshal_AssetInfo data with
      | inl err =>
        (h, (None, Some (Errorf "error parsing asset information response" err)))
      | inr assetInfoResponse => (h, (Some assetInfoResponse, None))
      end
    end
  end.

(** Lines 223-253. *)
Definition GetAllCoinsBalance (h : list Call) (req : GetAllCoinsBalanceRequest.t)
    : list Call * Returned GetAllCoinsBalanceResponse :=
  let queryParams := GetAllCoinsBalanceRequest.queryParams req in
  let '(h, got) :=
    client_Get h "/v5/asset/transfer/query-account-coins-balance" queryParams in
  match got with
  | inl err => (h, (None, Some (Errorf "error fetching all coins balance" err)))
  | inr response =>
    match json_Marshal response with
    | inl err => (h, (None, Some err))
    | inr data =>
      match json_Unmarshal_AllCoinsBalance data with
      | inl err =>
        (h, (None, Some (Errorf "error parsing all coins balance response" err)))
      | inr coinsBalanceResponse => (h, (Some coinsBalanceResponse, None))
      end
    end
  end.

End Asset.

(** ** The pagination aggregator

    The three paginated calls are instances of one algorithm (design
    section 4.3): fetch, re-encode, decode, append, follow the cursor.
    [Aggregate] states it once over the parameter mapping; the calls above
    are proved to refine it, and the conversation with the server is
    described by the pages it serves. *)
Section Aggregator.
Context `{Collaborators} {R : Type}.
Variable unmarshal : Data -> error + PageResponse R.
Variables path fetchContext parseContext : string.

(** How one fetch/decode cycle ends. *)
Inductive Cycle : Type :=
| FetchFailed (err : error)
| EncodeFailed (err : error)
| DecodeFailed (err : error)
| Decoded (page : PageResponse R).

Definition cycle (got : error + Response) : Cycle :=
  match got with
  | inl err => FetchFailed err
  | inr response =>
    match json_Marshal response with
    | inl err => EncodeFailed err
    | inr data =>
      match unmarshal data with
      | inl err => DecodeFailed err
      | inr page => Decoded page
      end
    end
  end.

(** The error a failed cycle hands to the caller. *)
Definition cycleError (c : Cycle) : option error :=
  match c with
  | FetchFailed err => Some (Errorf fetchContext err)
  | EncodeFailed err => Some err
  | DecodeFailed err => Some (Errorf parseContext err)
  | Decoded _ => None
  end.

Fixpoint Aggregate (fuel : nat) (h : list Call) (params : Params)
    (allRecords : list R) : option (list Call * Params * (list R + error)) :=
  match fuel with
  | O => None
  | S fuel =>
    let '(h, got) := client_Get h path params in
    match cycle got with
    | FetchFailed err => Some (h, params, inr (Errorf fetchContext err))
    | EncodeFailed err => Some (h, params, inr err)
    | DecodeFailed err => Some (h, params, inr (Errorf parseContext err))
    | Decoded page =>
      let allRecords := allRecords ++ List (Result page) in
      if decide (NextPageCursor (Result page) = "")
      then Some (h, params, inl allRecords)
      else Aggregate fuel h (<["cursor" := NextPageCursor (Result page)]> params)
                     allRecords
    end
  end.

Definition cursorOf (page : PageResponse R) : string :=
  NextPageCursor (Result page).

Definition hasNext (page : PageResponse R) : Prop := cursorOf page ≠ "".

(** The parameter mapping after following the cursors of [pages]. *)
Definition paramsAfter (params : Params) (pages : list (PageResponse R)) : Params :=
  foldl (fun params page => <["cursor" := cursorOf page]> params) params pages.

(** The calls made to fetch [pages], one per page. *)
Fixpoint callsFor (params : Params) (pages : list (PageResponse R)) : list Call :=
  match pages with
  | [] => []
  | page :: pages => (path, params) :: callsFor (<["cursor" := cursorOf page]> params) pages
  end.

(** The client serves [pages] to the conversation that starts after
    history [h] with [params] and follows each page's cursor: every
    request is answered by a response that decodes to the next page. *)
Fixpoint Serves (h : list Call) (params : Params) (pages : list (PageResponse R))
    : Prop :=
  match pages with
  | [] => True
  | page :: pages =>
    cycle (respond h (path, params)) = Decoded page /\
    Serves (h ++ [(path, params)]) (<["cursor" := cursorOf page]> params) pages
  end.

(** All records of [pages], page by page. *)
Definition recordsOf (pages : list (PageResponse R)) : list R :=
  concat (map (fun page => List (Result page)) pages).

End Aggregator.

(** ** The three paginated endpoints, side by side *)

Inductive Endpoint : Type :=
| CoinExchangeRecords
| DeliveryRecords
| SessionSettlementRecords.

Definition RequestOf (ep : Endpoint) : Type :=
  match ep with
  | CoinExchangeRecords => GetCoinExchangeRecordsRequest.t
  | DeliveryRecords => GetDeliveryRecordRequest.t
  | SessionSettlementRecords => GetSessionSettlementRecordRequest.t
  end.

Definition pathOf (ep : Endpoint) : string :=
  match ep with
  | CoinExchangeRecords => "/v5/asset/exchange/order-record"
  | DeliveryRecords => "/v5/asset/delivery-record"
  | SessionSettlementRecords => "/v5/asset/settlement-record"
  end.

Definition fetchContextOf (ep : Endpoint) : string :=
  match ep with
  | CoinExchangeRecords => "error fetching coin exchange records"
  | DeliveryRecords => "error fetching delivery records"
  | SessionSettlementRecords => "error fetching session settlement records"
  end.

Definition parseContextOf (ep : Endpoint) : string :=
  match ep with
  | CoinExchangeRecords => "error parsing coin exchange records response"
  | DeliveryRecords => "error parsing delivery records response"
  | SessionSettlementRecords => "error parsing session settlement records response"
  end.

Definition queryParamsOf (ep : Endpoint) : RequestOf ep -> Params :=
  match ep with
  | CoinExchangeRecords => GetCoinExchangeRecordsRequest.queryParams
  | DeliveryRecords => GetDeliveryRecordRequest.queryParams
  | SessionSettlementRecords => GetSessionSettlementRecordRequest.queryParams
  end.

(** The request's [Cursor] field. *)
Definition cursorFieldOf (ep : Endpoint) : RequestOf ep -> option string :=
  match ep with
  | CoinExchangeRecords => GetCoinExchangeRecordsRequest.Cursor
  | DeliveryRecords => GetDeliveryRecordRequest.Cursor
  | SessionSettlementRecords => GetSessionSettlementRecordRequest.Cursor
  end.

(** The request with its [Cursor] field replaced. *)
Definition withCursor (ep : Endpoint) : RequestOf ep -> option string -> RequestOf ep :=
  match ep with
  | CoinExchangeRecords => fun req c =>
      GetCoinExchangeRecordsRequest.mk
        (GetCoinExchangeRecordsRequest.FromCoin req)
        (GetCoinExchangeRecordsRequest.ToCoin req)
        (GetCoinExchangeRecordsRequest.Limit req) c
  | DeliveryRecords => fun req c =>
      GetDeliveryRecordRequest.mk
        (GetDeliveryRecordRequest.Category req)
        (GetDeliveryRecordRequest.Symbol req)
        (GetDeliveryRecordRequest.StartTime req)
        (GetDeliveryRecordRequest.EndTime req)
        (GetDeliveryRecordRequest.ExpDate req)
        (GetDeliveryRecordRequest.Limit req) c
  | SessionSettlementRecords => fun req c =>
      GetSessionSettlementRecordRequest.mk
        (GetSessionSettlementRecordRequest.Category req)
        (GetSessionSettlementRecordRequest.Symbol req)
        (GetSessionSettlementRecordRequest.StartTime req)
        (GetSessionSettlementRecordRequest.EndTime req)
        (GetSessionSettlementRecordRequest.Limit req) c
  end.

Section Endpoints.
Context `{Collaborators}.

Definition RecordOf (ep : Endpoint) : Type :=
  match ep with
  | CoinExchangeRecords => CoinExchangeRecord
  | DeliveryRecords => DeliveryRecordEntry
  | SessionSettlementRecords => SessionSettlementRecord
  end.

Definition unmarshalOf (ep : Endpoint) : Data -> error + PageResponse (RecordOf ep) :=
  match ep with
  | CoinExchangeRecords => json_Unmarshal_CoinExchange
  | DeliveryRecords => json_Unmarshal_Delivery
  | SessionSettlementRecords => json_Unmarshal_Settlement
  end.

(** The result of a call: history, the caller's request afterwards, and
    what the call returned; [None] while the loop is still running. *)
Definition Outcome (ep : Endpoint) : Type :=
  option (list Call * RequestOf ep * Returned (PageResponse (RecordOf ep))).

Definition aggregation (ep : Endpoint)
    : nat -> list Call -> RequestOf ep -> Outcome ep :=
  match ep with
  | CoinExchangeRecords => GetCoinExchangeRecords
  | DeliveryRecords => GetDeliveryRecords
  | SessionSettlementRecords => GetSessionSettlementRecords
  end.

(** The caller's request once the loop has reached [params]: the two
    calls that write [req.Cursor] leave the cursor of the last request in
    it; the settlement call leaves the request alone. *)
Definition requestAfter (ep : Endpoint) : RequestOf ep -> Params -> RequestOf ep :=
  match ep with
  | CoinExchangeRecords => fun req params =>
      withCursor CoinExchangeRecords req (params !! "cursor")
  | DeliveryRecords => fun req params =>
      withCursor DeliveryRecords req (params !! "cursor")
  | SessionSettlementRecords => fun req _ => req
  end.

(** [Aggregate] at an endpoint, packaged like the endpoint's call. *)
Definition AggregateAt (ep : Endpoint) (fuel : nat) (h : list Call)
    (req : RequestOf ep) : Outcome ep :=
  match Aggregate (unmarshalOf ep) (pathOf ep) (fetchContextOf ep)
          (parseContextOf ep) fuel h (queryParamsOf ep req) [] with
  | None => None
  | Some (h, params, exit) => Some (h, requestAfter ep req params, returnFrom exit)
  end.

Definition ServesAt (ep : Endpoint) (h : list Call) (req : RequestOf ep)
    (pages : list (PageResponse (RecordOf ep))) : Prop :=
  Serves (unmarshalOf ep) (pathOf ep) h (queryParamsOf ep req) pages.

Definition callsAt (ep : Endpoint) (req : RequestOf ep)
    (pages : list (PageResponse (RecordOf ep))) : list Call :=
  callsFor (pathOf ep) (queryParamsOf ep req) pages.

End Endpoints.

(** ** Go's [encoding/json] on the page envelope

    [json.Unmarshal] belongs to the Go standard library.  Its rules for
    decoding into a struct, as the package documents them: object keys are
    matched to field names under Unicode simple case folding, keys without
    a field are skipped, a field without a key keeps the value it had,
    [null] leaves a non-pointer field alone, and a value of the wrong kind
    (or a number that does not fit) is skipped while the earliest such
    mismatch is reported as the error.  The document is kept as a tree of
    decoded values (keys and strings as UTF-8 bytes); its concrete syntax
    plays no part here. *)
Module GoJSON.

(** A number is an integer literal ([JNumber]) or a literal with a
    fraction or an exponent, kept as its text ([JFraction]). *)
Inductive JSON : Type :=
| JNull
| JBool (b : bool)
| JNumber (n : Z)
| JFraction (literal : string)
| JString (s : string)
| JArray (elems : list JSON)
| JObject (members : list (string * JSON)).

Definition kind (v : JSON) : string :=
  match v with
  | JNull => "null"
  | JBool _ => "bool"
  | JNumber _ => "number"
  | JFraction _ => "number"
  | JString _ => "string"
  | JArray _ => "array"
  | JObject _ => "object"
  end.

(** A number that does not fit its target is reported with its text. *)
Definition literalOf (v : JSON) : string :=
  match v with
  | JNumber n => "number " +:+ Itoa n
  | JFraction literal => "number " +:+ literal
  | _ => kind v
  end.

(** The text of a [*json.UnmarshalTypeError]: [struct] is the name of the
    struct being filled and [field] the path of the field from the root,
    both empty when the mismatch is at the root. *)
Definition UnmarshalTypeError (value struct field goType : string) : error :=
  errorString
    (if String.eqb struct "" && String.eqb field ""
     then "json: cannot unmarshal " +:+ value +:+ " into Go value of type "
          +:+ goType
     else "json: cannot unmarshal " +:+ value +:+ " into Go struct field "
          +:+ struct +:+ "." +:+ field +:+ " of type " +:+ goType).

(** The earliest mismatch is the one reported. *)
Definition firstError (saved new : option error) : option error :=
  match saved with
  | Some _ => saved
  | None => new
  end.

Definition isByte (n : nat) (c : ascii) : bool := Nat.eqb (nat_of_ascii c) n.

Definition upperAscii (c : ascii) : ascii :=
  let n := nat_of_ascii c in
  if ((97 <=? n) && (n <=? 122))%nat then ascii_of_nat (n - 32) else c.

(** The folded form of a name: ASCII letters in upper case, and the two
    runes outside ASCII whose fold set holds an ASCII letter, U+017F (long
    s, bytes C5 BF) and U+212A (Kelvin sign, bytes E2 84 AA), as [S] and
    [K].  Every other rune outside ASCII folds to a rune outside ASCII;
    its bytes are kept, which decides the comparison with the ASCII names
    of the fields the same way. *)
Fixpoint foldName (s : string) : string :=
  match s with
  | EmptyString => EmptyString
  | String c rest =>
    match rest with
    | EmptyString => String (upperAscii c) EmptyString
    | String c1 rest1 =>
      if isByte 197 c && isByte 191 c1 then String "S"%char (foldName rest1)
      else
        match rest1 with
        | EmptyString => String (upperAscii c) (foldName rest)
        | String c2 rest2 =>
          if isByte 226 c && isByte 132 c1 && isByte 170 c2
          then String "K"%char (foldName rest2)
          else String (upperAscii c) (foldName rest)
        end
    end
  end.

Definition keyMatches (field key : string) : bool :=
  String.eqb (foldName field) (foldName key).

Definition inInt64 (n : Z) : bool := ((- 2 ^ 63 <=? n) && (n <? 2 ^ 63))%Z.

Definition decodeInt (struct field : string) (v : JSON) (old : Z)
    : Z * option error :=
  match v with
  | JNull => (old, None)
  | JNumber n =>
    if inInt64 n then (n, None)
    else (old, Some (UnmarshalTypeError (literalOf v) struct field "int"))
  | JFraction _ =>
    (old, Some (UnmarshalTypeError (literalOf v) struct field "int"))
  | _ => (old, Some (UnmarshalTypeError (kind v) struct field "int"))
  end.

Definition decodeString (struct field : string) (v : JSON) (old : string)
    : string * option error :=
  match v with
  | JNull => (old, None)
  | JString s => (s, None)
  | _ => (old, Some (UnmarshalTypeError (kind v) struct field "string"))
  end.

(** What the error texts take from the struct declarations: the name of
    the response struct (the one in the call's signature), and the name of
    the struct type of [Result] with the printed types of [Result] and of
    the record list, which are declared outside [asset.go]. *)
Record TypeNames : Type := mkTypeNames {
  structName : string;
  resultStruct : string;
  resultType : string;
  recordsType : string
}.

Section Page.
Context {R : Type}.
(** The decoder of one record; the record structs are declared elsewhere. *)
Variable decodeRecord : JSON -> R * option error.
(** The key of the record list: [orderBody] or [list]. *)
Variable recordsField : string.
Variable names : TypeNames.

Fixpoint decodeElems (elems : list JSON) : list R * option error :=
  match elems with
  | [] => ([], None)
  | v :: elems =>
    let '(r, e) := decodeRecord v in
    let '(rs, es) := decodeElems elems in
    (r :: rs, firstError e es)
  end.

Definition decodeSlice (v : JSON) (old : list R) : list R * option error :=
  match v with
  | JNull => ([], None)
  | JArray elems => decodeElems elems
  | _ => (old, Some (UnmarshalTypeError (kind v) (resultStruct names)
                       ("result." +:+ recordsField) (recordsType names)))
  end.

Definition decodeResultMember (st : PageResult R * option error)
    (member : string * JSON) : PageResult R * option error :=
  let '(res, saved) := st in
  let '(key, v) := member in
  if keyMatches recordsField key then
    let '(l, e) := decodeSlice v (List res) in
    (mkPageResult l (NextPageCursor res), firstError saved e)
  else if keyMatches "nextPageCursor" key then
    let '(c, e) := decodeString (resultStruct names) "result.nextPageCursor" v
                     (NextPageCursor res) in
    (mkPageResult (List res) c, firstError saved e)
  else st.

Definition decodeResult (v : JSON) (st : PageResult R * option error)
    : PageResult R * option error :=
  match v with
  | JNull => st
  | JObject members => foldl decodeResultMember st members
  | _ => (fst st,
          firstError (snd st)
            (Some (UnmarshalTypeError (kind v) (structName names) "result"
                     (resultType names))))
  end.

Definition decodePageMember (st : PageResponse R * option error)
    (member : string * JSON) : PageResponse R * option error :=
  let '(page, saved) := st in
  let '(key, v) := member in
  if keyMatches "retCode" key then
    let '(n, e) := decodeInt (structName names) "retCode" v (RetCode page) in
    (mkPageResponse n (RetMsg page) (Result page), firstError saved e)
  else if keyMatches "retMsg" key then
    let '(s, e) := decodeString (structName names) "retMsg" v (RetMsg page) in
    (mkPageResponse (RetCode page) s (Result page), firstError saved e)
  else if keyMatches "result" key then
    let '(res, e) := decodeResult v (Result page, saved) in
    (mkPageResponse (RetCode page) (RetMsg page) res, e)
  else st.

(** [var page T]: the zero value the decoder starts from. *)
Definition zeroPage : PageResponse R := mkPageResponse 0 "" (mkPageResult [] "").

(** [json.Unmarshal(data, &page)]. *)
Definition Unmarshal (data : JSON) : error + PageResponse R :=
  match data with
  | JNull => inr zeroPage
  | JObject members =>
    match foldl decodePageMember (zeroPage, None) members with
    | (page, None) => inr page
    | (_, Some err) => inl err
    end
  | _ => inl (UnmarshalTypeError (kind data) "" ""
                ("asset." +:+ structName names))
  end.

(** Which documents decode: every member that names a field holds a value
    of the field's kind (or [null]).  Nothing is asked of absent fields. *)
Definition intOK (v : JSON) : bool :=
  match v with
  | JNull => true
  | JNumber n => inInt64 n
  | _ => false
  end.

Definition stringOK (v : JSON) : bool :=
  match v with
  | JNull | JString _ => true
  | _ => false
  end.

Definition recordOK (v : JSON) : bool :=
  match snd (decodeRecord v) with
  | None => true
  | Some _ => false
  end.

Definition sliceOK (v : JSON) : bool :=
  match v with
  | JNull => true
  | JArray elems => forallb recordOK elems
  | _ => false
  end.

Definition resultMemberOK (member : string * JSON) : bool :=
  let '(key, v) := member in
  if keyMatches recordsField key then sliceOK v
  else if keyMatches "nextPageCursor" key then stringOK v
  else true.

Definition resultOK (v : JSON) : bool :=
  match v with
  | JNull => true
  | JObject members => forallb resultMemberOK members
  | _ => false
  end.

Definition pageMemberOK (member : string * JSON) : bool :=
  let '(key, v) := member in
  if keyMatches "retCode" key then intOK v
  else if keyMatches "retMsg" key then stringOK v
  else if keyMatches "result" key then resultOK v
  else true.

Definition pageOK (data : JSON) : bool :=
  match data with
  | JNull => true
  | JObject members => forallb pageMemberOK members
  | _ => false
  end.

(** Modelled from the spec: the wire-level page envelope of section 6,
    [{ retCode: int, retMsg: string, result: { <recordsField>: [Record...],
    nextPageCursor: string } }], every field present and of its kind.  This
    is the "expected page shape" the decoder is said to insist on. *)
Definition member (key : string) (members : list (string * JSON)) : option JSON :=
  snd <$> find (fun m => String.eqb (fst m) key) members.

Definition hasPageShape (data : JSON) : bool :=
  match data with
  | JObject members =>
    match member "retCode" members, member "retMsg" members,
          member "result" members with
    | Some (JNumber _), Some (JString _), Some (JObject fields) =>
      match member recordsField fields, member "nextPageCursor" fields with
      | Some (JArray elems), Some (JString _) => forallb recordOK elems
      | _, _ => false
      end
    | _, _, _ => false
    end
  | _ => false
  end.

End Page.

(** A record reduced to its identifier, a string: [null] leaves the zero
    value, anything else than a string is a mismatch. *)
Definition decodeId (struct field : string) (v : JSON) : string * option error :=
  match v with
  | JNull => ("", None)
  | JString s => (s, None)
  | _ => ("", Some (UnmarshalTypeError (kind v) struct field "string"))
  end.

(** Single-object responses (asset info, balances): kept as the tree. *)
Definition UnmarshalObject (structName : string) (data : JSON) : error + JSON :=
  match data with
  | JNull | JObject _ => inr data
  | _ => inl (UnmarshalTypeError (kind data) "" "" ("asset." +:+ structName))
  end.

(** A page as the server sends it. *)
Definition pageJSON (recordsField : string) (retCode : Z) (retMsg : string)
    (ids : list string) (cursor : string) : JSON :=
  JObject [("retCode", JNumber retCode); ("retMsg", JString retMsg);
           ("result", JObject [(recordsField, JArray (JString <$> ids));
                               ("nextPageCursor", JString cursor)])].

(** A client that replays a script, one entry per call. *)
Definition scripted (script : list (error + JSON)) (h : list Call) (_ : Call)
    : error + JSON :=
  match script !! length h with
  | Some got => got
  | None => inl (errorString "EOF")
  end.

(** A server that keeps its pages by cursor and answers the request's
    [cursor] parameter (none: the first page). *)
Definition byCursor (pages : gmap string JSON) (_ : list Call) (c : Call)
    : error + JSON :=
  match pages !! default "" (snd c !! "cursor") with
  | Some page => inr page
  | None => inl (errorString "unknown cursor")
  end.

(** The names of the three page structs, [Result] taken as an anonymous
    struct (the way the package's [PlaceOrderResponse] declares it). *)
Definition pageNames (structName recordName : string) : TypeNames :=
  mkTypeNames structName "" "struct" ("[]asset." +:+ recordName).

Definition pageDecoder (recordsField structName recordName : string)
    : JSON -> error + PageResponse string :=
  Unmarshal (decodeId "" ("result." +:+ recordsField)) recordsField
    (pageNames structName recordName).

(** The collaborators over JSON trees. *)
Definition world (marshal : JSON -> error + JSON)
    (client : list Call -> Call -> error + JSON) : Collaborators :=
  {| Response := JSON;
     Data := JSON;
     CoinExchangeRecord := string;
     DeliveryRecordEntry := string;
     SessionSettlementRecord := string;
     GetAssetInfoResponse := JSON;
     GetAllCoinsBalanceResponse := JSON;
     respond := client;
     json_Marshal := marshal;
     json_Unmarshal_CoinExchange :=
       pageDecoder "orderBody" "GetCoinExchangeRecordsResponse" "CoinExchangeRecord";
     json_Unmarshal_Delivery :=
       pageDecoder "list" "GetDeliveryRecordResponse" "DeliveryRecordEntry";
     json_Unmarshal_Settlement :=
       pageDecoder "list" "GetSessionSettlementRecordResponse"
         "SessionSettlementRecord";
     json_Unmarshal_AssetInfo := UnmarshalObject "GetAssetInfoResponse";
     json_Unmarshal_AllCoinsBalance := UnmarshalObject "GetAllCoinsBalanceResponse" |}.

(** Re-encoding a decoded tree always works; a response that cannot be
    encoded (a value [json.Marshal] rejects) is the other case. *)
Definition marshalTree (response : JSON) : error + JSON := inr response.

Definition marshalRejects (response : JSON) : error + JSON :=
  inl (errorString "json: unsupported value").

End GoJSON.

(** ** Sample conversations

    Concrete requests, pages and servers on which the statements below are
    run. *)
Module Sample.
Import GoJSON.

Definition exchangeRequest : GetCoinExchangeRecordsRequest.t :=
  GetCoinExchangeRecordsRequest.mk (Some "BTC") None (Some 50%Z) None.

Definition deliveryRequest : GetDeliveryRecordRequest.t :=
  GetDeliveryRecordRequest.mk "option" (Some "BTC-30JUN23") None
    (Some 1700000000000%Z) None (Some 20%Z) None.

Definition settlementRequest : GetSessionSettlementRecordRequest.t :=
  GetSessionSettlementRecordRequest.mk "linear" None (Some (-1)%Z) None None None.

(** Page 1 holds [a, b] and points to [X]; page 2 holds [c], ends the
    listing and carries a status of its own. *)
Definition P1 : PageResponse string :=
  mkPageResponse 0 "OK" (mkPageResult ["a"; "b"] "X").

Definition P2 : PageResponse string :=
  mkPageResponse 10001 "params error" (mkPageResult ["c"] "").

Definition wire (recordsField : string) (page : PageResponse string) : JSON :=
  pageJSON recordsField (RetCode page) (RetMsg page) (List (Result page))
    (NextPageCursor (Result page)).

(** A server holding the two pages by cursor. *)
Definition twoPages (recordsField : string) : Collaborators :=
  world marshalTree
    (byCursor (<["" := wire recordsField P1]> (<["X" := wire recordsField P2]> ∅))).

(** A server whose every page points to a next one. *)
Definition endless (recordsField : string) : Collaborators :=
  world marshalTree (byCursor (<["" := wire recordsField P1]>
                                (<["X" := wire recordsField P1]> ∅))).

(** The transport fails on the second call. *)
Definition secondCallFails : Collaborators :=
  world marshalTree
    (scripted [inr (wire "list" P1); inl (errorString "connection reset")]).

(** The first response is an empty object: every field is missing. *)
Definition emptyObject : Collaborators :=
  world marshalTree (scripted [inr (JObject [])]).

(** The first response carries [retCode] as a string. *)
Definition mistypedRetCode : Collaborators :=
  world marshalTree (scripted [inr (JObject [("retCode", JString "0")])]).

(** A body with a status of its own, as a single-request endpoint may
    send it. *)
Definition failureBody : JSON :=
  JObject [("retCode", JNumber 10001); ("retMsg", JString "params error");
           ("result", JObject [])].

Definition unnormalized : Collaborators :=
  world marshalTree (scripted [inr failureBody]).

(** The transport fails on the second call and recovers afterwards. *)
Definition flaky : Collaborators :=
  world marshalTree
    (scripted [inr (wire "list" P1); inl (errorString "connection reset");
               inr (wire "list" P2)]).

(** The transport answers nothing but an error. *)
Definition offline : Collaborators := world marshalTree (scripted []).

(** The second response cannot be re-encoded ([JNull] stands for a value
    the encoder rejects). *)
Definition secondUnencodable : Collaborators :=
  world (fun response => match response with
                         | JNull => marshalRejects response
                         | _ => marshalTree response
                         end)
    (scripted [inr (wire "list" P1); inr JNull]).

End Sample.

(** * Proofs *)

Local Close Scope Z_scope.

(** ** The pagination aggregator *)
Section AggregatorFacts.
Context `{Collaborators} {R : Type}.
Variable unmarshal : Data -> error + PageResponse R.
Variables path fetchContext parseContext : string.

Local Abbreviation aggregate := (Aggregate unmarshal path fetchContext parseContext).
Local Abbreviation serves := (Serves unmarshal path).
Local Abbreviation calls := (callsFor (R:=R) path).
Local Abbreviation outcome := (cycle unmarshal).
Local Abbreviation failure := (cycleError (R:=R) fetchContext parseContext).

Lemma paramsAfter_snoc (params : Params) (pages : list (PageResponse R)) page :
  paramsAfter params (pages ++ [page])
  = <["cursor" := cursorOf page]> (paramsAfter params pages).
Proof. unfold paramsAfter. by rewrite foldl_app. Qed.

Lemma paramsAfter_cons (params : Params) page (pages : list (PageResponse R)) :
  paramsAfter params (page :: pages)
  = paramsAfter (<["cursor" := cursorOf page]> params) pages.
Proof. done. Qed.

Lemma callsFor_snoc (params : Params) (pages : list (PageResponse R)) page :
  calls params (pages ++ [page])
  = calls params pages ++ [(path, paramsAfter params pages)].
Proof.
  revert params. induction pages as [|p pages IH]; intros params; [done|].
  simpl. by rewrite IH.
Qed.

Lemma callsFor_length (params : Params) (pages : list (PageResponse R)) :
  length (calls params pages) = length pages.
Proof.
  revert params. induction pages as [|p pages IH]; intros params; [done|].
  simpl. by rewrite IH.
Qed.

Lemma callsFor_lookup (params : Params) (pages : list (PageResponse R)) i :
  i < length pages ->
  calls params pages !! i = Some (path, paramsAfter params (take i pages)).
Proof.
  revert params i. induction pages as [|p pages IH]; intros params i Hi; simpl in *.
  - lia.
  - destruct i as [|i]; [done|]. simpl. apply IH. lia.
Qed.

Lemma Serves_snoc h (params : Params) (pages : list (PageResponse R)) page :
  serves h params (pages ++ [page]) <->
  serves h params pages /\
  outcome (respond (h ++ calls params pages) (path, paramsAfter params pages))
  = Decoded page.
Proof.
  revert h params. induction pages as [|p pages IH]; intros h params; simpl.
  - rewrite app_nil_r. tauto.
  - rewrite IH, <- app_assoc. simpl. tauto.
Qed.

Lemma Serves_take h (params : Params) (pages : list (PageResponse R)) n :
  serves h params pages -> serves h params (take n pages).
Proof.
  revert h params n. induction pages as [|p pages IH]; intros h params n Hs.
  - by rewrite take_nil.
  - destruct n as [|n]; [done|]. simpl in *. destruct Hs as [Hp Hs]. auto.
Qed.

(** The conversation is deterministic: two page lists served from the same
    point agree as far as both go. *)
Lemma Serves_agree h (params : Params) (ps qs : list (PageResponse R)) i p q :
  serves h params ps -> serves h params qs ->
  ps !! i = Some p -> qs !! i = Some q -> p = q.
Proof.
  revert h params qs i.
  induction ps as [|p0 ps IH]; intros h params qs i Hp Hq Hi Hj; [done|].
  destruct qs as [|q0 qs]; [done|].
  simpl in Hp, Hq. destruct Hp as [Hp0 Hp], Hq as [Hq0 Hq].
  assert (p0 = q0) as -> by congruence.
  destruct i as [|i]; simpl in *; [congruence|]. eauto.
Qed.

(** One turn of the loop. *)
Lemma Aggregate_step fuel h (params : Params) (acc : list R) :
  aggregate (S fuel) h params acc =
  match outcome (respond h (path, params)) with
  | Decoded page =>
    if decide (cursorOf page = "")
    then Some (h ++ [(path, params)], params, inl (acc ++ List (Result page)))
    else aggregate fuel (h ++ [(path, params)])
           (<["cursor" := cursorOf page]> params) (acc ++ List (Result page))
  | c =>
    match failure c with
    | Some e => Some (h ++ [(path, params)], params, inr e)
    | None => None
    end
  end.
Proof. simpl. unfold cursorOf. by destruct (outcome _). Qed.

(** Completeness: a conversation that ends with an empty cursor is drained
    with one cycle per page. *)
Lemma Aggregate_drains (pages : list (PageResponse R)) last n h params acc :
  serves h params (pages ++ [last]) ->
  Forall hasNext pages ->
  cursorOf last = "" ->
  aggregate (length pages + S n) h params acc
  = Some (h ++ calls params (pages ++ [last]), paramsAfter params pages,
          inl (acc ++ recordsOf (pages ++ [last]))).
Proof.
  revert h params acc.
  induction pages as [|p pages IH]; intros h params acc Hs Hn Hl.
  - simpl in Hs. destruct Hs as [Hc _].
    cbn [length Nat.add app]. rewrite Aggregate_step, Hc.
    rewrite decide_True by done.
    unfold recordsOf. simpl. by rewrite app_nil_r.
  - simpl in Hs. destruct Hs as [Hc Hs].
    apply Forall_cons in Hn as [Hp Hn].
    cbn [length Nat.add app]. rewrite Aggregate_step, Hc.
    rewrite decide_False by done.
    rewrite (IH _ _ _ Hs Hn Hl).
    unfold recordsOf. simpl. by rewrite <- !app_assoc.
Qed.

(** A failing cycle after [pages] ends the loop at once. *)
Lemma Aggregate_aborts (pages : list (PageResponse R)) e n h params acc :
  serves h params pages ->
  Forall hasNext pages ->
  failure (outcome (respond (h ++ calls params pages)
                      (path, paramsAfter params pages))) = Some e ->
  aggregate (length pages + S n) h params acc
  = Some (h ++ calls params pages ++ [(path, paramsAfter params pages)],
          paramsAfter params pages, inr e).
Proof.
  revert h params acc.
  induction pages as [|p pages IH]; intros h params acc Hs Hn He.
  - simpl in He. rewrite app_nil_r in He.
    cbn [length Nat.add]. rewrite Aggregate_step.
    destruct (outcome _); simpl in *; congruence.
  - simpl in Hs. destruct Hs as [Hc Hs].
    apply Forall_cons in Hn as [Hp Hn].
    cbn [length Nat.add]. rewrite Aggregate_step, Hc.
    rewrite decide_False by done.
    simpl in He. rewrite (cons_middle _ h), app_assoc in He.
    rewrite (IH _ _ _ Hs Hn He).
    simpl. by rewrite <- !app_assoc.
Qed.

(** While every page so far asks for a next one, the loop is running. *)
Lemma Aggregate_spins (pages : list (PageResponse R)) fuel h params acc :
  serves h params pages ->
  Forall hasNext pages ->
  (fuel <= length pages)%nat ->
  aggregate fuel h params acc = None.
Proof.
  revert pages h params acc.
  induction fuel as [|fuel IH]; intros pages h params acc Hs Hn Hf; [done|].
  destruct pages as [|p pages]; simpl in Hf; [lia|].
  simpl in Hs. destruct Hs as [Hc Hs].
  apply Forall_cons in Hn as [Hp Hn].
  rewrite Aggregate_step, Hc, decide_False by done.
  apply (IH pages); [done..|lia].
Qed.

(** Soundness: whatever a finished run returns, it got there through a
    run of pages with non-empty cursors and one closing cycle. *)
Lemma Aggregate_inv fuel h params acc h' params' exit :
  aggregate fuel h params acc = Some (h', params', exit) ->
  exists pages : list (PageResponse R),
    serves h params pages /\ Forall hasNext pages /\
    (length pages < fuel)%nat /\
    params' = paramsAfter params pages /\
    h' = h ++ calls params pages ++ [(path, params')] /\
    ((exists last,
        outcome (respond (h ++ calls params pages) (path, params')) = Decoded last /\
        cursorOf last = "" /\
        exit = inl (acc ++ recordsOf (pages ++ [last])))
     \/
     (exists e,
        failure (outcome (respond (h ++ calls params pages) (path, params'))) = Some e /\
        exit = inr e)).
Proof.
  revert h params acc.
  induction fuel as [|fuel IH]; intros h params acc Hrun; [done|].
  rewrite Aggregate_step in Hrun.
  destruct (outcome (respond h (path, params))) as [e|e|e|page] eqn:Hc.
  1-3: simpl in Hrun; injection Hrun as <- <- <-;
       exists []; simpl; rewrite app_nil_r, Hc;
       (repeat split; [constructor|lia|]); right; eauto.
  destruct (decide (cursorOf page = "")) as [Hl|Hl].
  - injection Hrun as <- <- <-. exists []. simpl. rewrite app_nil_r, Hc.
    repeat split; [constructor|lia|]. left. exists page.
    unfold recordsOf. simpl. by rewrite app_nil_r.
  - apply IH in Hrun as (pages & Hs & Hn & Hlen & -> & -> & Hexit).
    exists (page :: pages). simpl.
    rewrite <- !app_assoc in *. simpl in *.
    repeat split; try done; [by constructor|lia|].
    destruct Hexit as [(last & Ho & Hlast & ->)|(e & He & ->)]; [left|right].
    + exists last. repeat split; try done.
      unfold recordsOf. simpl. by rewrite <- !app_assoc.
    + eauto.
Qed.

Lemma Aggregate_more_fuel fuel n h params acc x :
  aggregate fuel h params acc = Some x ->
  aggregate (fuel + n) h params acc = Some x.
Proof.
  revert h params acc.
  induction fuel as [|fuel IH]; intros h params acc Hrun; [done|].
  cbn [Nat.add]. rewrite Aggregate_step in *.
  destruct (outcome _) as [e|e|e|page]; try done.
  destruct (decide _); [done|]. by apply IH.
Qed.

End AggregatorFacts.

(** ** Query builder *)

Lemma lookup_setIfPresent {A} key (f : A -> string) ptr (m : Params) k :
  setIfPresent key f ptr m !! k =
  match ptr with
  | Some v => if decide (key = k) then Some (f v) else m !! k
  | None => m !! k
  end.
Proof.
  destruct ptr as [v|]; simpl; [|done].
  rewrite lookup_insert. by destruct (decide (key = k)).
Qed.

Lemma insert_setIfPresent key (ptr : option string) (m : Params) v :
  <[key := v]> (setIfPresent key id ptr m) = <[key := v]> m.
Proof. destruct ptr; simpl; [apply insert_insert_eq|done]. Qed.

Lemma ParseInt10_Itoa (i : Z) : ParseInt10 (Itoa i) = Some i.
Proof.
  unfold ParseInt10, Itoa.
  rewrite NilZero.isi.
  - simpl. by rewrite DecimalZ.of_to.
  - destruct i; simpl; try discriminate.
    intros [= Hnil]. by apply DecimalPos.Unsigned.to_uint_nonnil in Hnil.
  - destruct i; simpl; try discriminate.
    intros [= Hnil]. by apply DecimalPos.Unsigned.to_uint_nonnil in Hnil.
Qed.

Example Itoa_samples :
  Itoa 0 = "0" /\ Itoa 50 = "50" /\ Itoa (-7) = "-7" /\
  FormatInt10 1700000000000 = "1700000000000".
Proof. repeat split. Qed.

(** Looking a key up in a built mapping: peel the optional fields off. *)
Ltac lookup_built :=
  repeat (rewrite lookup_setIfPresent || rewrite lookup_insert
          || rewrite lookup_empty);
  repeat match goal with
         | |- context [decide (?a = ?b)] => destruct (decide (a = b)); try done
         | |- context [match ?o with Some _ => _ | None => _ end] =>
           destruct o; try done
         end.

Lemma queryParamsOf_cursor ep (req : RequestOf ep) :
  queryParamsOf ep req !! "cursor" = cursorFieldOf ep req.
Proof.
  destruct ep, req; unfold queryParamsOf, cursorFieldOf,
    GetCoinExchangeRecordsRequest.queryParams, GetDeliveryRecordRequest.queryParams,
    GetSessionSettlementRecordRequest.queryParams; cbn -[setIfPresent insert lookup].
  all: rewrite lookup_setIfPresent.
  all: (match goal with |- match ?c with _ => _ end = _ => destruct c end); try done.
  all: lookup_built.
Qed.

Lemma queryParamsOf_withCursor ep (req : RequestOf ep) c :
  queryParamsOf ep (withCursor ep req (Some c))
  = <["cursor" := c]> (queryParamsOf ep req).
Proof.
  destruct ep, req; unfold queryParamsOf, withCursor,
    GetCoinExchangeRecordsRequest.queryParams, GetDeliveryRecordRequest.queryParams,
    GetSessionSettlementRecordRequest.queryParams; cbn -[setIfPresent insert].
  all: by rewrite insert_setIfPresent.
Qed.

Lemma withCursor_withCursor ep (req : RequestOf ep) c c' :
  withCursor ep (withCursor ep req c) c' = withCursor ep req c'.
Proof. by destruct ep, req. Qed.

Lemma withCursor_same ep (req : RequestOf ep) :
  withCursor ep req (cursorFieldOf ep req) = req.
Proof. by destruct ep, req. Qed.

Lemma cursorFieldOf_withCursor ep (req : RequestOf ep) c :
  cursorFieldOf ep (withCursor ep req c) = c.
Proof. by destruct ep, req. Qed.

(** ** The three calls refine the aggregator *)
Section Refinement.
Context `{Collaborators}.

Local Ltac reduce := cbn [cycle pathOf fetchContextOf parseContextOf].

Lemma GetCoinExchangeRecords_for_refines fuel h req allRecords :
  GetCoinExchangeRecords_for fuel h req allRecords =
  match Aggregate json_Unmarshal_CoinExchange (pathOf CoinExchangeRecords)
          (fetchContextOf CoinExchangeRecords) (parseContextOf CoinExchangeRecords)
          fuel h (GetCoinExchangeRecordsRequest.queryParams req) allRecords with
  | None => None
  | Some (h', params', exit) =>
    Some (h', withCursor CoinExchangeRecords req (params' !! "cursor"), exit)
  end.
Proof.
  revert h req allRecords.
  induction fuel as [|fuel IH]; intros h req allRecords; [done|].
  pose proof (queryParamsOf_cursor CoinExchangeRecords req) as Hcur.
  pose proof (withCursor_same CoinExchangeRecords req) as Hsame.
  cbn [queryParamsOf cursorFieldOf] in Hcur, Hsame.
  cbn [GetCoinExchangeRecords_for Aggregate client_Get cycle pathOf].
  destruct (respond _ _) as [err|response]; reduce; [by rewrite Hcur, Hsame|].
  destruct (json_Marshal response) as [err|data]; reduce; [by rewrite Hcur, Hsame|].
  destruct (json_Unmarshal_CoinExchange data) as [err|page]; reduce;
    [by rewrite Hcur, Hsame|].
  destruct (decide _); [by rewrite Hcur, Hsame|].
  rewrite IH.
  change (GetCoinExchangeRecordsRequest.setCursor req ?c)
    with (withCursor CoinExchangeRecords req (Some c)).
  rewrite (queryParamsOf_withCursor CoinExchangeRecords).
  destruct (Aggregate _ _ _ _ _ _ _ _) as [[[h' params'] exit]|]; [|done].
  by rewrite withCursor_withCursor.
Qed.

Lemma GetDeliveryRecords_for_refines fuel h req allRecords :
  GetDeliveryRecords_for fuel h req allRecords =
  match Aggregate json_Unmarshal_Delivery (pathOf DeliveryRecords)
          (fetchContextOf DeliveryRecords) (parseContextOf DeliveryRecords)
          fuel h (GetDeliveryRecordRequest.queryParams req) allRecords with
  | None => None
  | Some (h', params', exit) =>
    Some (h', withCursor DeliveryRecords req (params' !! "cursor"), exit)
  end.
Proof.
  revert h req allRecords.
  induction fuel as [|fuel IH]; intros h req allRecords; [done|].
  pose proof (queryParamsOf_cursor DeliveryRecords req) as Hcur.
  pose proof (withCursor_same DeliveryRecords req) as Hsame.
  cbn [queryParamsOf cursorFieldOf] in Hcur, Hsame.
  cbn [GetDeliveryRecords_for Aggregate client_Get cycle pathOf].
  destruct (respond _ _) as [err|response]; reduce; [by rewrite Hcur, Hsame|].
  destruct (json_Marshal response) as [err|data]; reduce; [by rewrite Hcur, Hsame|].
  destruct (json_Unmarshal_Delivery data) as [err|page]; reduce;
    [by rewrite Hcur, Hsame|].
  destruct (decide _); [by rewrite Hcur, Hsame|].
  rewrite IH.
  change (GetDeliveryRecordRequest.setCursor req ?c)
    with (withCursor DeliveryRecords req (Some c)).
  rewrite (queryParamsOf_withCursor DeliveryRecords).
  destruct (Aggregate _ _ _ _ _ _ _ _) as [[[h' params'] exit]|]; [|done].
  by rewrite withCursor_withCursor.
Qed.

Lemma GetSessionSettlementRecords_for_refines fuel h queryParams allRecords :
  GetSessionSettlementRecords_for fuel h queryParams allRecords =
  Aggregate json_Unmarshal_Settlement (pathOf SessionSettlementRecords)
    (fetchContextOf SessionSettlementRecords)
    (parseContextOf SessionSettlementRecords) fuel h queryParams allRecords.
Proof.
  revert h queryParams allRecords.
  induction fuel as [|fuel IH]; intros h queryParams allRecords; [done|].
  cbn [GetSessionSettlementRecords_for Aggregate client_Get cycle pathOf].
  destruct (respond _ _) as [err|response]; reduce; [done|].
  destruct (json_Marshal response) as [err|data]; reduce; [done|].
  destruct (json_Unmarshal_Settlement data) as [err|page]; reduce;
    [done|].
  destruct (decide _); [done|]. apply IH.
Qed.

(** Each call is the aggregator at its endpoint. *)
Lemma aggregation_refines ep fuel h (req : RequestOf ep) :
  aggregation ep fuel h req = AggregateAt ep fuel h req.
Proof.
  destruct ep; unfold aggregation, AggregateAt; cbn [unmarshalOf queryParamsOf].
  - unfold GetCoinExchangeRecords. rewrite GetCoinExchangeRecords_for_refines.
    by destruct (Aggregate _ _ _ _ _ _ _ _) as [[[h' params'] exit]|].
  - unfold GetDeliveryRecords. rewrite GetDeliveryRecords_for_refines.
    by destruct (Aggregate _ _ _ _ _ _ _ _) as [[[h' params'] exit]|].
  - unfold GetSessionSettlementRecords.
    rewrite GetSessionSettlementRecords_for_refines.
    by destruct (Aggregate _ _ _ _ _ _ _ _) as [[[h' params'] exit]|].
Qed.

End Refinement.

(** ** The paginated calls *)
Section Paginated.
Context `{Collaborators}.

Lemma aggregation_unfold ep fuel h (req : RequestOf ep) :
  aggregation ep fuel h req =
  match Aggregate (unmarshalOf ep) (pathOf ep) (fetchContextOf ep)
          (parseContextOf ep) fuel h (queryParamsOf ep req) [] with
  | None => None
  | Some (h, params, exit) => Some (h, requestAfter ep req params, returnFrom exit)
  end.
Proof. apply aggregation_refines. Qed.

(** C1.  When the server's pages are [pages ++ [last]], [last] being the
    first page with an empty cursor, each paginated call returns after
    exactly one fetch/decode cycle per page: it is still running with less
    fuel than pages, it has returned with as much, it has called the
    client once per page, and the records it returns are those of the
    pages, in page order and in the order within each page. *)
Theorem aggregation_concatenates_pages ep (req : RequestOf ep) h
    (pages : list (PageResponse (RecordOf ep))) last n :
  ServesAt ep h req (pages ++ [last]) ->
  Forall hasNext pages ->
  cursorOf last = "" ->
  (forall fuel, fuel < length (pages ++ [last]) ->
     aggregation ep fuel h req = None) /\
  exists h' req' resp,
    aggregation ep (length (pages ++ [last]) + n) h req
    = Some (h', req', (Some resp, None)) /\
    List (Result resp)
    = concat (map (fun page => List (Result page)) (pages ++ [last])) /\
    h' = h ++ callsAt ep req (pages ++ [last]) /\
    length h' = length h + length (pages ++ [last]).
Proof.
  intros Hs Hn Hl. split.
  - intros fuel Hf. rewrite aggregation_unfold.
    apply Serves_snoc in Hs as [Hs _].
    rewrite (Aggregate_spins _ _ _ _ pages), ?length_app; try done.
    rewrite length_app in Hf. simpl in Hf. lia.
  - eexists _, _, _. rewrite aggregation_unfold.
    rewrite length_app. cbn [length]. rewrite <- Nat.add_assoc.
    rewrite (Aggregate_drains _ _ _ _ pages last); try done.
    split; [reflexivity|]. split; [reflexivity|]. split; [done|].
    unfold callsAt. rewrite !length_app, callsFor_length, length_app. done.
Qed.

End Paginated.

Lemma aggregation_concatenates_pages_witness :
  let W := Sample.twoPages "orderBody" in
  exists h' req' resp,
    @aggregation W CoinExchangeRecords 2 [] Sample.exchangeRequest
    = Some (h', req', (Some resp, None)) /\
    List (Result resp) = ["a"; "b"; "c"] /\
    length h' = 2.
Proof.
  intros W.
  destruct (@aggregation_concatenates_pages W CoinExchangeRecords
              Sample.exchangeRequest [] [Sample.P1] Sample.P2 0)
    as [_ (h' & req' & resp & Hrun & Hrecords & _ & Hlen)].
  - vm_compute. auto.
  - repeat constructor. discriminate.
  - reflexivity.
  - exists h', req', resp. split; [exact Hrun|]. split; [exact Hrecords|exact Hlen].
Defined.

(** ** What the calls send *)
Section Trace.
Context `{Collaborators} {R : Type}.
Variable unmarshal : Data -> error + PageResponse R.
Variables path fetchContext parseContext : string.

Local Abbreviation aggregate := (Aggregate unmarshal path fetchContext parseContext).
Local Abbreviation outcome := (cycle unmarshal).

(** A finished run has made its first call with the mapping it was given. *)
Lemma Aggregate_first_call fuel h (params : Params) (acc : list R) h' params' exit :
  aggregate fuel h params acc = Some (h', params', exit) ->
  exists rest, h' = h ++ (path, params) :: rest.
Proof.
  intros Hrun.
  apply Aggregate_inv in Hrun as (pages & _ & _ & _ & -> & -> & _).
  destruct pages as [|p pages]; simpl; eauto.
Qed.

(** Cursor propagation along the calls of a finished run. *)
Lemma Aggregate_cursor_propagation fuel h (params : Params) (acc : list R)
    h' params' exit N pathN paramsN page :
  aggregate fuel h params acc = Some (h', params', exit) ->
  h' !! (length h + N) = Some (pathN, paramsN) ->
  outcome (respond (take (length h + N) h') (pathN, paramsN)) = Decoded page ->
  cursorOf page <> "" ->
  h' !! (length h + N + 1) = Some (path, <["cursor" := cursorOf page]> paramsN).
Proof.
  revert h params acc N.
  induction fuel as [|fuel IH]; intros h params acc N Hrun HN Hpage Hnext; [done|].
  rewrite Aggregate_step in Hrun.
  assert (h' = h ++ [(path, params)] ->
          outcome (respond h (path, params)) = Decoded page) as Hsingle.
  { intros ->. destruct N as [|N].
    - rewrite Nat.add_0_r in *.
      rewrite lookup_app_r, Nat.sub_diag in HN by lia.
      injection HN as <- <-.
      by rewrite take_app_length in Hpage.
    - apply lookup_lt_Some in HN. rewrite length_app in HN. simpl in HN. lia. }
  destruct (outcome (respond h (path, params))) as [e|e|e|p0] eqn:Hc;
    simpl in Hrun;
    try (injection Hrun as Hh _ _; symmetry in Hh; by apply Hsingle in Hh).
  destruct (decide (cursorOf p0 = "")) as [Hlast|Hmore].
  - injection Hrun as Hh _ _. symmetry in Hh. apply Hsingle in Hh. congruence.
  - pose proof Hrun as Hfirst.
    apply Aggregate_first_call in Hfirst as [rest Hrest].
    destruct N as [|N].
    + rewrite Nat.add_0_r in *.
      rewrite Hrest, <- app_assoc in HN, Hpage.
      rewrite lookup_app_r, Nat.sub_diag in HN by lia.
      injection HN as <- <-.
      rewrite take_app_length in Hpage.
      assert (page = p0) as -> by congruence.
      rewrite Hrest, lookup_app_r; rewrite length_app; simpl; [|lia].
      replace (length h + 1 - (length h + 1)) with 0 by lia. done.
    + specialize (IH (h ++ [(path, params)]) _ _ N Hrun).
      rewrite length_app in IH. simpl in IH.
      replace (length h + 1 + N) with (length h + S N) in IH by lia.
      by apply IH.
Qed.

End Trace.

Section Paginated2.
Context `{Collaborators}.

(** C2.  If the transport fails on the call that follows [pages] (none:
    the first call), each paginated call returns a nil response and the
    transport error wrapped by [fmt.Errorf] with the cause kept under
    [Unwrap]; the failing call is the last one made, so nothing is
    retried and nothing of [pages] reaches the caller. *)
Theorem transport_failure_aborts ep (req : RequestOf ep) h
    (pages : list (PageResponse (RecordOf ep))) cause n :
  ServesAt ep h req pages ->
  Forall hasNext pages ->
  respond (h ++ callsAt ep req pages)
    (pathOf ep, paramsAfter (queryParamsOf ep req) pages) = inl cause ->
  exists req' err,
    aggregation ep (length pages + 1 + n) h req
    = Some (h ++ callsAt ep req pages
              ++ [(pathOf ep, paramsAfter (queryParamsOf ep req) pages)],
            req', (None, Some err)) /\
    err = Errorf (fetchContextOf ep) cause /\
    Unwrap err = Some cause.
Proof.
  intros Hs Hn Hfail. eexists _, _. rewrite aggregation_unfold.
  rewrite <- Nat.add_assoc.
  rewrite (Aggregate_aborts _ _ _ _ pages (Errorf (fetchContextOf ep) cause));
    try done.
  unfold callsAt in Hfail. by rewrite Hfail.
Qed.

(** C3.  Whatever a paginated call returns as a response has
    [RetCode = 0], [RetMsg = "OK"] and an empty [NextPageCursor], and it
    comes without an error. *)
Theorem success_is_normalized ep fuel h (req : RequestOf ep) h' req' resp err :
  aggregation ep fuel h req = Some (h', req', (Some resp, err)) ->
  RetCode resp = 0%Z /\ RetMsg resp = "OK" /\
  NextPageCursor (Result resp) = "" /\ err = None.
Proof.
  rewrite aggregation_unfold.
  destruct (Aggregate _ _ _ _ _ _ _ _) as [[[h1 params1] [records|e]]|];
    simpl; [|done..].
  by intros [= <- <- <- <-].
Qed.

(** C4.  In a finished run, if the page fetched by call [N] has a
    non-empty cursor, call [N + 1] goes to the same path with a mapping
    that holds that cursor under [cursor] and agrees with the mapping of
    call [N] on every other key. *)
Theorem cursor_propagation ep fuel h (req : RequestOf ep) h' req' ret
    N pathN paramsN page :
  aggregation ep fuel h req = Some (h', req', ret) ->
  h' !! (length h + N) = Some (pathN, paramsN) ->
  cycle (unmarshalOf ep) (respond (take (length h + N) h') (pathN, paramsN))
  = Decoded page ->
  cursorOf page <> "" ->
  exists paramsN1,
    h' !! (length h + N + 1) = Some (pathOf ep, paramsN1) /\
    paramsN1 !! "cursor" = Some (cursorOf page) /\
    (forall key, key <> "cursor" -> paramsN1 !! key = paramsN !! key).
Proof.
  rewrite aggregation_unfold. intros Hrun HN Hpage Hnext.
  destruct (Aggregate _ _ _ _ _ _ _ _) as [[[h1 params1] exit]|] eqn:Hagg;
    [|done].
  injection Hrun as <- <- <-.
  exists (<["cursor" := cursorOf page]> paramsN). split; [|split].
  - eapply Aggregate_cursor_propagation; eauto.
  - apply lookup_insert_eq.
  - intros key Hkey. by apply lookup_insert_ne.
Qed.

End Paginated2.

Lemma transport_failure_aborts_witness :
  let W := Sample.secondCallFails in
  exists h' req' err,
    @aggregation W SessionSettlementRecords 2 [] Sample.settlementRequest
    = Some (h', req', (None, Some err)) /\
    length h' = 2 /\
    err = Errorf "error fetching session settlement records"
            (errorString "connection reset") /\
    Unwrap err = Some (errorString "connection reset").
Proof.
  intros W.
  destruct (@transport_failure_aborts W SessionSettlementRecords
              Sample.settlementRequest [] [Sample.P1]
              (errorString "connection reset") 0)
    as (req' & err & Hrun & Herr & Hcause).
  - vm_compute. auto.
  - repeat constructor. discriminate.
  - reflexivity.
  - eexists _, req', err. split; [exact Hrun|]. split; [reflexivity|]. by split.
Defined.

Lemma success_is_normalized_witness :
  let W := Sample.twoPages "list" in
  exists h' req' resp,
    @aggregation W DeliveryRecords 2 [] Sample.deliveryRequest
    = Some (h', req', (Some resp, None)) /\
    RetCode resp = 0%Z /\ RetMsg resp = "OK" /\ NextPageCursor (Result resp) = "".
Proof.
  intros W.
  destruct (@aggregation W DeliveryRecords 2 [] Sample.deliveryRequest)
    as [[[h' req'] [[resp|] err]]|] eqn:Hrun;
    try (vm_compute in Hrun; discriminate).
  destruct (@success_is_normalized W DeliveryRecords 2 [] Sample.deliveryRequest
              h' req' resp err Hrun) as (Hcode & Hmsg & Hcursor & ->).
  by exists h', req', resp.
Defined.

Lemma cursor_propagation_witness :
  let W := Sample.twoPages "orderBody" in
  exists h' req' ret paramsN1,
    @aggregation W CoinExchangeRecords 2 [] Sample.exchangeRequest
    = Some (h', req', ret) /\
    h' !! 1 = Some ("/v5/asset/exchange/order-record", paramsN1) /\
    paramsN1 !! "cursor" = Some "X" /\
    (forall key, key <> "cursor" ->
       paramsN1 !! key
       = GetCoinExchangeRecordsRequest.queryParams Sample.exchangeRequest !! key).
Proof.
  intros W.
  destruct (@aggregation W CoinExchangeRecords 2 [] Sample.exchangeRequest)
    as [[[h' req'] ret]|] eqn:Hrun; [|vm_compute in Hrun; discriminate].
  destruct (@cursor_propagation W CoinExchangeRecords 2 [] Sample.exchangeRequest
              h' req' ret 0 "/v5/asset/exchange/order-record"
              (GetCoinExchangeRecordsRequest.queryParams Sample.exchangeRequest)
              Sample.P1 Hrun)
    as (paramsN1 & Hcall & Hcursor & Hothers).
  - vm_compute in Hrun. injection Hrun as <- _ _. reflexivity.
  - reflexivity.
  - discriminate.
  - by exists h', req', ret, paramsN1.
Defined.

(** ** Termination *)

(** The first page with an empty cursor, if there is one at all. *)
Lemma first_empty_cursor {R} (pages : nat -> PageResponse R) n :
  cursorOf (pages n) = "" ->
  exists m, cursorOf (pages m) = "" /\ Forall hasNext (pages <$> seq 0 m).
Proof.
  induction n as [n IH] using lt_wf_ind. intros Hn.
  destruct (decide (Forall (fun page => cursorOf page <> "") (pages <$> seq 0 n)))
    as [Hall|Hsome].
  - by exists n.
  - apply not_Forall_Exists in Hsome; [|apply _].
    apply Exists_exists in Hsome as (page & Hin & Hempty).
    apply list_elem_of_fmap in Hin as (i & -> & Hi).
    apply elem_of_seq in Hi.
    apply (IH i); [lia|].
    by destruct (decide (cursorOf (pages i) = "")).
Qed.

Section Termination.
Context `{Collaborators}.

(** C7.  Let the server's pages be [pages 0], [pages 1], ... (every fetch
    and decode succeeds).  A paginated call returns, given enough fuel,
    exactly when some page has an empty cursor; when no page has one, no
    amount of fuel makes it return: the loop has no other exit. *)
Theorem terminates_iff_empty_cursor ep h (req : RequestOf ep)
    (pages : nat -> PageResponse (RecordOf ep)) :
  (forall n, ServesAt ep h req (pages <$> seq 0 n)) ->
  ((exists fuel, aggregation ep fuel h req <> None) <->
   (exists n, cursorOf (pages n) = "")) /\
  ((forall n, cursorOf (pages n) <> "") ->
   forall fuel, aggregation ep fuel h req = None).
Proof.
  intros Hserves.
  assert (forall fuel, Forall hasNext (pages <$> seq 0 fuel) ->
                       aggregation ep fuel h req = None) as Hspin.
  { intros fuel Hall. rewrite aggregation_unfold.
    rewrite (Aggregate_spins _ _ _ _ (pages <$> seq 0 fuel)); try done.
    - apply Hserves.
    - by rewrite length_fmap, length_seq. }
  split; [split|].
  - intros [fuel Hret].
    destruct (decide (Forall (fun page => cursorOf page <> "")
                        (pages <$> seq 0 fuel))) as [Hall|Hsome].
    + by apply Hspin in Hall.
    + apply not_Forall_Exists in Hsome; [|apply _].
      apply Exists_exists in Hsome as (page & Hin & Hempty).
      apply list_elem_of_fmap in Hin as (i & -> & _).
      exists i. by destruct (decide (cursorOf (pages i) = "")).
  - intros [n Hn].
    apply first_empty_cursor in Hn as (m & Hm & Hbefore).
    exists (length (pages <$> seq 0 m) + 1).
    rewrite aggregation_unfold.
    rewrite (Aggregate_drains _ _ _ _ (pages <$> seq 0 m) (pages m)); try done.
    specialize (Hserves (S m)).
    by rewrite seq_S, fmap_app in Hserves.
  - intros Hnever fuel. apply Hspin.
    apply Forall_fmap, Forall_forall. intros i _. apply Hnever.
Qed.

End Termination.

Lemma terminates_iff_empty_cursor_witness :
  let W := Sample.endless "list" in
  @aggregation W SessionSettlementRecords 1000 [] Sample.settlementRequest = None.
Proof.
  intros W.
  apply (fun served never =>
           proj2 (@terminates_iff_empty_cursor W SessionSettlementRecords []
                    Sample.settlementRequest (fun _ => Sample.P1) served)
                 never 1000).
  - intros n. unfold ServesAt.
    change (queryParamsOf SessionSettlementRecords Sample.settlementRequest)
      with (GetSessionSettlementRecordRequest.queryParams Sample.settlementRequest).
    generalize (@nil Call).
    assert (forall (params : Params) h,
              params !! "cursor" = None \/ params !! "cursor" = Some "X" ->
              @Serves W string (@unmarshalOf W SessionSettlementRecords)
                (pathOf SessionSettlementRecords) h params
                ((fun _ => Sample.P1) <$> seq 0 n)) as Hany.
    { generalize 0 as start.
      induction n as [|n IH]; intros start params h Hcur; [done|].
      cbn [seq fmap list_fmap Serves]. split.
      - cbn. unfold GoJSON.byCursor. cbn [snd].
        destruct Hcur as [-> | ->]; reflexivity.
      - apply IH. right. apply lookup_insert_eq. }
    intros h. apply Hany. left. reflexivity.
  - discriminate.
Defined.

(** ** The caller's request *)

Lemma paramsAfter_cursor {R} (params : Params) (pages : list (PageResponse R)) :
  paramsAfter params pages !! "cursor" =
  match last pages with
  | Some page => Some (cursorOf page)
  | None => params !! "cursor"
  end.
Proof.
  destruct pages as [|p pages _] using rev_ind; [done|].
  rewrite paramsAfter_snoc, last_snoc. apply lookup_insert_eq.
Qed.

Section CallerRequest.
Context `{Collaborators}.

(** C9.  [GetCoinExchangeRecords] and [GetDeliveryRecords] write every
    non-empty cursor into the caller's request: after a run over
    [pages ++ [last]] the request holds the cursor of the last page of
    [pages] (the last non-empty one) and is otherwise as it was; after a
    single-page run it is unchanged.  [GetSessionSettlementRecords]
    leaves the caller's request as it was, however the run ends. *)
Theorem request_cursor_after_call :
  (forall ep, ep <> SessionSettlementRecords ->
   forall (req : RequestOf ep) h (pages : list (PageResponse (RecordOf ep))) final n,
     ServesAt ep h req (pages ++ [final]) ->
     Forall hasNext pages ->
     cursorOf final = "" ->
     exists h' ret,
       aggregation ep (length pages + 1 + n) h req
       = Some (h',
               match last pages with
               | Some page => withCursor ep req (Some (cursorOf page))
               | None => req
               end,
               ret)) /\
  (forall fuel h req h' req' ret,
     GetSessionSettlementRecords fuel h req = Some (h', req', ret) ->
     req' = req) /\
  (forall (req : RequestOf SessionSettlementRecords) h
          (pages : list (PageResponse (RecordOf SessionSettlementRecords))) final n,
     ServesAt SessionSettlementRecords h req (pages ++ [final]) ->
     Forall hasNext pages ->
     cursorOf final = "" ->
     exists h' ret,
       GetSessionSettlementRecords (length pages + 1 + n) h req
       = Some (h', req, ret)).
Proof.
  split; [|split].
  - intros ep Hep req h pages final n Hs Hn Hl. eexists _, _.
    rewrite aggregation_unfold, <- Nat.add_assoc.
    rewrite (Aggregate_drains _ _ _ _ pages final); try done.
    do 3 f_equal.
    destruct ep; try done; unfold requestAfter; rewrite paramsAfter_cursor;
      (destruct (last pages); [done|]);
      rewrite queryParamsOf_cursor; apply withCursor_same.
  - intros fuel h req h' req' ret. unfold GetSessionSettlementRecords.
    destruct (GetSessionSettlementRecords_for _ _ _ _) as [[[h1 params1] exit]|];
      [|done].
    by intros [= _ <- _].
  - intros req h pages final n Hs Hn Hl. eexists _, _.
    change (GetSessionSettlementRecords ?f ?h ?r)
      with (aggregation SessionSettlementRecords f h r).
    rewrite aggregation_unfold, <- Nat.add_assoc.
    by rewrite (Aggregate_drains _ _ _ _ pages final).
Qed.

End CallerRequest.

Lemma request_cursor_after_call_witness :
  (exists h' ret,
     @GetCoinExchangeRecords (Sample.twoPages "orderBody") 2 [] Sample.exchangeRequest
     = Some (h', GetCoinExchangeRecordsRequest.setCursor Sample.exchangeRequest "X",
             ret)) /\
  (exists h' ret,
     @GetSessionSettlementRecords (Sample.twoPages "list") 2 []
        Sample.settlementRequest
     = Some (h', Sample.settlementRequest, ret)).
Proof.
  split.
  - apply (proj1 (@request_cursor_after_call (Sample.twoPages "orderBody"))
             CoinExchangeRecords ltac:(discriminate) Sample.exchangeRequest []
             [Sample.P1] Sample.P2 0).
    + vm_compute. auto.
    + repeat constructor. discriminate.
    + reflexivity.
  - apply (proj2 (proj2 (@request_cursor_after_call (Sample.twoPages "list")))
             Sample.settlementRequest [] [Sample.P1] Sample.P2 0).
    + vm_compute. auto.
    + repeat constructor. discriminate.
    + reflexivity.
Defined.

(** ** The single-request calls *)
Section SingleRequest.
Context `{Collaborators}.

(** C10.  [GetAssetInfo] and [GetAllCoinsBalance] call the client exactly
    once, with the built mapping, and on success return the decoded
    response as the decoder produced it. *)
Theorem single_request_calls h (reqA : GetAssetInfoRequest.t)
    (reqB : GetAllCoinsBalanceRequest.t) :
  let callA := ("/v5/asset/transfer/query-asset-info",
                GetAssetInfoRequest.queryParams reqA) in
  let callB := ("/v5/asset/transfer/query-account-coins-balance",
                GetAllCoinsBalanceRequest.queryParams reqB) in
  (fst (GetAssetInfo h reqA) = h ++ [callA] /\
   forall response data decoded,
     respond h callA = inr response ->
     json_Marshal response = inr data ->
     json_Unmarshal_AssetInfo data = inr decoded ->
     snd (GetAssetInfo h reqA) = (Some decoded, None)) /\
  (fst (GetAllCoinsBalance h reqB) = h ++ [callB] /\
   forall response data decoded,
     respond h callB = inr response ->
     json_Marshal response = inr data ->
     json_Unmarshal_AllCoinsBalance data = inr decoded ->
     snd (GetAllCoinsBalance h reqB) = (Some decoded, None)).
Proof.
  intros callA callB. split; split.
  - unfold GetAssetInfo, client_Get. fold callA.
    destruct (respond h callA) as [err|response]; [done|].
    destruct (json_Marshal response) as [err|data]; [done|].
    by destruct (json_Unmarshal_AssetInfo data).
  - intros response data decoded Hget Hdata Hdecoded.
    unfold GetAssetInfo, client_Get. fold callA.
    by rewrite Hget, Hdata, Hdecoded.
  - unfold GetAllCoinsBalance, client_Get. fold callB.
    destruct (respond h callB) as [err|response]; [done|].
    destruct (json_Marshal response) as [err|data]; [done|].
    by destruct (json_Unmarshal_AllCoinsBalance data).
  - intros response data decoded Hget Hdata Hdecoded.
    unfold GetAllCoinsBalance, client_Get. fold callB.
    by rewrite Hget, Hdata, Hdecoded.
Qed.

End SingleRequest.

Lemma single_request_calls_witness :
  let W := Sample.unnormalized in
  let req := GetAssetInfoRequest.mk "SPOT" (Some "USDT") in
  length (fst (@GetAssetInfo W [] req)) = 1 /\
  snd (@GetAssetInfo W [] req) = (Some Sample.failureBody, None).
Proof.
  intros W req.
  destruct (@single_request_calls W [] req
              (GetAllCoinsBalanceRequest.mk None "UNIFIED" None None))
    as [[Hcalls Hret] _].
  split.
  - by rewrite Hcalls.
  - by apply (Hret Sample.failureBody Sample.failureBody).
Defined.

(** ** The query builder *)

Local Ltac present_key Hlook :=
  repeat (apply lookup_insert_Some in Hlook as [[<- _]|[_ Hlook]];
          [set_solver|]);
  by rewrite lookup_empty in Hlook.

(** C6.  Each built mapping holds every required field, holds the key of
    an optional field exactly when the pointer is non-nil (the lookup is
    the field itself: an unset field has no key, not an empty value),
    holds no other key, and writes numeric fields in base 10. *)
Theorem query_builders :
  (forall req : GetCoinExchangeRecordsRequest.t,
     let q := GetCoinExchangeRecordsRequest.queryParams req in
     q !! "fromCoin" = GetCoinExchangeRecordsRequest.FromCoin req /\
     q !! "toCoin" = GetCoinExchangeRecordsRequest.ToCoin req /\
     q !! "limit" = Itoa <$> GetCoinExchangeRecordsRequest.Limit req /\
     q !! "cursor" = GetCoinExchangeRecordsRequest.Cursor req /\
     (forall key v, q !! key = Some v ->
        key ∈ ["fromCoin"; "toCoin"; "limit"; "cursor"])) /\
  (forall req : GetDeliveryRecordRequest.t,
     let q := GetDeliveryRecordRequest.queryParams req in
     q !! "category" = Some (GetDeliveryRecordRequest.Category req) /\
     q !! "symbol" = GetDeliveryRecordRequest.Symbol req /\
     q !! "startTime" = FormatInt10 <$> GetDeliveryRecordRequest.StartTime req /\
     q !! "endTime" = FormatInt10 <$> GetDeliveryRecordRequest.EndTime req /\
     q !! "expDate" = GetDeliveryRecordRequest.ExpDate req /\
     q !! "limit" = Itoa <$> GetDeliveryRecordRequest.Limit req /\
     q !! "cursor" = GetDeliveryRecordRequest.Cursor req /\
     (forall key v, q !! key = Some v ->
        key ∈ ["category"; "symbol"; "startTime"; "endTime"; "expDate"; "limit";
               "cursor"])) /\
  (forall req : GetSessionSettlementRecordRequest.t,
     let q := GetSessionSettlementRecordRequest.queryParams req in
     q !! "category" = Some (GetSessionSettlementRecordRequest.Category req) /\
     q !! "symbol" = GetSessionSettlementRecordRequest.Symbol req /\
     q !! "startTime"
       = FormatInt10 <$> GetSessionSettlementRecordRequest.StartTime req /\
     q !! "endTime" = FormatInt10 <$> GetSessionSettlementRecordRequest.EndTime req /\
     q !! "limit" = Itoa <$> GetSessionSettlementRecordRequest.Limit req /\
     q !! "cursor" = GetSessionSettlementRecordRequest.Cursor req /\
     (forall key v, q !! key = Some v ->
        key ∈ ["category"; "symbol"; "startTime"; "endTime"; "limit"; "cursor"])) /\
  (forall req : GetAssetInfoRequest.t,
     let q := GetAssetInfoRequest.queryParams req in
     q !! "accountType" = Some (GetAssetInfoRequest.AccountType req) /\
     q !! "coin" = GetAssetInfoRequest.Coin req /\
     (forall key v, q !! key = Some v -> key ∈ ["accountType"; "coin"])) /\
  (forall req : GetAllCoinsBalanceRequest.t,
     let q := GetAllCoinsBalanceRequest.queryParams req in
     q !! "memberId" = GetAllCoinsBalanceRequest.MemberID req /\
     q !! "accountType" = Some (GetAllCoinsBalanceRequest.AccountType req) /\
     q !! "coin" = GetAllCoinsBalanceRequest.Coin req /\
     q !! "withBonus" = Itoa <$> GetAllCoinsBalanceRequest.WithBonus req /\
     (forall key v, q !! key = Some v ->
        key ∈ ["memberId"; "accountType"; "coin"; "withBonus"])) /\
  (forall i : Z, ParseInt10 (Itoa i) = Some i /\ ParseInt10 (FormatInt10 i) = Some i).
Proof.
  repeat split.
  all: try apply ParseInt10_Itoa.
  all: try (intros key v Hlook; destruct req; cbv zeta in Hlook;
            unfold GetCoinExchangeRecordsRequest.queryParams,
              GetDeliveryRecordRequest.queryParams,
              GetSessionSettlementRecordRequest.queryParams,
              GetAssetInfoRequest.queryParams,
              GetAllCoinsBalanceRequest.queryParams, setIfPresent in Hlook;
            cbn -[insert lookup] in Hlook;
            repeat match type of Hlook with
                   | context [match ?o with Some _ => _ | None => _ end] =>
                     destruct o
                   end;
            present_key Hlook).
  all: destruct req; cbv zeta;
    unfold GetCoinExchangeRecordsRequest.queryParams,
      GetDeliveryRecordRequest.queryParams,
      GetSessionSettlementRecordRequest.queryParams,
      GetAssetInfoRequest.queryParams,
      GetAllCoinsBalanceRequest.queryParams;
    cbn -[setIfPresent insert lookup fmap]; lookup_built.
Qed.

Lemma query_builders_witness :
  let q := GetCoinExchangeRecordsRequest.queryParams Sample.exchangeRequest in
  q !! "fromCoin" = Some "BTC" /\ q !! "toCoin" = None /\
  q !! "limit" = Some "50" /\ q !! "cursor" = None /\
  (q !! "limit" = Some "50" -> "limit" ∈ ["fromCoin"; "toCoin"; "limit"; "cursor"]).
Proof.
  intros q.
  destruct (proj1 query_builders Sample.exchangeRequest)
    as (Hfrom & Hto & Hlimit & Hcursor & Hkeys).
  repeat split; try done. apply Hkeys.
Defined.

(** ** Errors *)
Section Errors.
Context `{Collaborators}.




End Errors.


(** ** Decoding a page *)

Example keys_fold :
  GoJSON.keyMatches "nextPageCursor" "NEXTPAGECURSOR" = true /\
  GoJSON.keyMatches "nextPageCursor" "nextPageCurſor" = true /\
  GoJSON.keyMatches "orderBody" "orderbody" = true /\
  GoJSON.keyMatches "retCode" "ret_code" = false /\
  GoJSON.foldName "KkSs" = GoJSON.foldName "Kkſs".
Proof. repeat split. Qed.

Section Decoding.
Import GoJSON.
Context {R : Type}.
Variable decodeRecord : JSON -> R * option error.
Variable recordsField : string.
Variable names : TypeNames.

Local Abbreviation unmarshal := (Unmarshal decodeRecord recordsField names).

Lemma firstError_None saved new :
  firstError saved new = None <-> saved = None /\ new = None.
Proof. destruct saved; simpl; split; (intros [? ?] || intro); by try split. Qed.

Lemma decodeInt_ok struct field v old :
  snd (decodeInt struct field v old) = None <-> intOK v = true.
Proof. destruct v; simpl; try done. by destruct (inInt64 n). Qed.

Lemma decodeString_ok struct field v old :
  snd (decodeString struct field v old) = None <-> stringOK v = true.
Proof. by destruct v. Qed.

Lemma decodeElems_ok elems :
  snd (decodeElems decodeRecord elems) = None
  <-> forallb (recordOK decodeRecord) elems = true.
Proof.
  induction elems as [|v elems IH]; simpl; [done|].
  unfold recordOK at 1.
  destruct (decodeRecord v) as [r e], (decodeElems decodeRecord elems) as [rs es].
  simpl in *. rewrite firstError_None, andb_true_iff, <- IH.
  destruct e; simpl; [split; [intros [[=] _]|intros [[=] _]]|tauto].
Qed.

Lemma decodeSlice_ok v old :
  snd (decodeSlice decodeRecord recordsField names v old) = None
  <-> sliceOK decodeRecord v = true.
Proof. destruct v; simpl; try done. apply decodeElems_ok. Qed.

Lemma decodeResultMember_ok st m :
  snd (decodeResultMember decodeRecord recordsField names st m) = None
  <-> snd st = None /\ resultMemberOK decodeRecord recordsField m = true.
Proof.
  destruct st as [res saved], m as [key v].
  unfold decodeResultMember, resultMemberOK. cbn [snd].
  destruct (keyMatches recordsField key).
  { pose proof (decodeSlice_ok v (List res)) as Hok.
    destruct (decodeSlice decodeRecord recordsField names v (List res)) as [l e].
    simpl in *. by rewrite firstError_None, Hok. }
  destruct (keyMatches "nextPageCursor" key).
  { pose proof (decodeString_ok (resultStruct names) "result.nextPageCursor" v
                  (NextPageCursor res)) as Hok.
    destruct (decodeString _ _ v (NextPageCursor res)) as [c e]. simpl in *.
    by rewrite firstError_None, Hok. }
  simpl. tauto.
Qed.

Lemma decodeResult_fold_ok members st :
  snd (foldl (decodeResultMember decodeRecord recordsField names) st members) = None
  <-> snd st = None
      /\ forallb (resultMemberOK decodeRecord recordsField) members = true.
Proof.
  revert st. induction members as [|m members IH]; intros st; cbn [foldl forallb].
  - tauto.
  - rewrite IH, decodeResultMember_ok, andb_true_iff. tauto.
Qed.

Lemma decodeResult_ok v st :
  snd (decodeResult decodeRecord recordsField names v st) = None
  <-> snd st = None /\ resultOK decodeRecord recordsField v = true.
Proof.
  destruct v; simpl; rewrite ?firstError_None;
    try (split; [intros [_ [=]]|intros [_ [=]]]).
  - tauto.
  - apply decodeResult_fold_ok.
Qed.

Lemma decodePageMember_ok st m :
  snd (decodePageMember decodeRecord recordsField names st m) = None
  <-> snd st = None /\ pageMemberOK decodeRecord recordsField m = true.
Proof.
  destruct st as [page saved], m as [key v].
  unfold decodePageMember, pageMemberOK. cbn [snd].
  destruct (keyMatches "retCode" key).
  { pose proof (decodeInt_ok (structName names) "retCode" v (RetCode page)) as Hok.
    destruct (decodeInt _ _ v (RetCode page)) as [n e]. simpl in *.
    by rewrite firstError_None, Hok. }
  destruct (keyMatches "retMsg" key).
  { pose proof (decodeString_ok (structName names) "retMsg" v (RetMsg page)) as Hok.
    destruct (decodeString _ _ v (RetMsg page)) as [s e]. simpl in *.
    by rewrite firstError_None, Hok. }
  destruct (keyMatches "result" key).
  { pose proof (decodeResult_ok v (Result page, saved)) as Hok.
    destruct (decodeResult decodeRecord recordsField names v (Result page, saved))
      as [res e]. simpl in *. exact Hok. }
  simpl. tauto.
Qed.

Lemma decodePage_fold_ok members st :
  snd (foldl (decodePageMember decodeRecord recordsField names) st members) = None
  <-> snd st = None
      /\ forallb (pageMemberOK decodeRecord recordsField) members = true.
Proof.
  revert st. induction members as [|m members IH]; intros st; cbn [foldl forallb].
  - tauto.
  - rewrite IH, decodePageMember_ok, andb_true_iff. tauto.
Qed.

(** The decoder fails exactly on a document with a mistyped member. *)
Lemma Unmarshal_fails_iff data :
  (exists err, unmarshal data = inl err)
  <-> pageOK decodeRecord recordsField data = false.
Proof.
  destruct data; simpl; try (split; [done|eauto]); try (split; [by intros [? ?]|done]).
  pose proof (decodePage_fold_ok members (zeroPage, None)) as Hok.
  destruct (foldl _ _ members) as [page [err|]]; simpl in Hok.
  - split; [|eauto]. intros _. apply not_true_is_false. intros Htrue.
    destruct Hok as [_ Hok]. by specialize (Hok (conj eq_refl Htrue)).
  - split; [by intros [? ?]|]. intros Hfalse.
    destruct Hok as [Hok _]. rewrite (proj2 (Hok eq_refl)) in Hfalse. done.
Qed.

End Decoding.

(** C5, as the code has it.  A decode failure on the page that follows
    [pages] ends each paginated call at once, with a nil response and the
    decoder's error under the endpoint's "error parsing ..." context.  The
    decoder itself fails exactly when a member that names a field holds a
    value of the wrong kind ([pageOK] is false); it asks nothing of fields
    that are absent, so the empty object decodes to the zero page. *)
Theorem decode_failure_aborts :
  (forall (W : Collaborators) ep (req : RequestOf ep) h
          (pages : list (PageResponse (RecordOf ep))) cause n,
     ServesAt ep h req pages ->
     Forall hasNext pages ->
     cycle (unmarshalOf ep)
       (respond (h ++ callsAt ep req pages)
          (pathOf ep, paramsAfter (queryParamsOf ep req) pages))
     = DecodeFailed cause ->
     exists req',
       aggregation ep (length pages + 1 + n) h req
       = Some (h ++ callsAt ep req pages
                 ++ [(pathOf ep, paramsAfter (queryParamsOf ep req) pages)],
               req', (None, Some (Errorf (parseContextOf ep) cause)))) /\
  (forall R (decodeRecord : GoJSON.JSON -> R * option error) recordsField names
          data,
     (exists err, GoJSON.Unmarshal decodeRecord recordsField names data = inl err)
     <-> GoJSON.pageOK decodeRecord recordsField data = false) /\
  (forall R (decodeRecord : GoJSON.JSON -> R * option error) recordsField names,
     GoJSON.Unmarshal decodeRecord recordsField names (GoJSON.JObject [])
     = inr GoJSON.zeroPage).
Proof.
  split; [|split].
  - intros W ep req h pages cause n Hs Hn Hfail. eexists.
    rewrite aggregation_unfold, <- Nat.add_assoc.
    rewrite (Aggregate_aborts _ _ _ _ pages (Errorf (parseContextOf ep) cause));
      try done.
    unfold callsAt in Hfail. by rewrite Hfail.
  - intros R decodeRecord recordsField names data. apply Unmarshal_fails_iff.
  - done.
Qed.

(** C5, as the claim has it, fails: a response in which every field is
    missing does not have the page shape, yet it decodes, and the call
    takes it for a last page without records. *)
Lemma missing_fields_are_accepted :
  let decode := GoJSON.decodeId "" "result.orderBody" in
  let names := GoJSON.pageNames "GetCoinExchangeRecordsResponse"
                 "CoinExchangeRecord" in
  ~ (forall data,
       GoJSON.hasPageShape decode "orderBody" data = false ->
       exists err, GoJSON.Unmarshal decode "orderBody" names data = inl err) /\
  GoJSON.hasPageShape decode "orderBody" (GoJSON.JObject []) = false /\
  exists h' req' resp,
    @GetCoinExchangeRecords Sample.emptyObject 1 [] Sample.exchangeRequest
    = Some (h', req', (Some resp, None)) /\
    List (Result resp) = [] /\ length h' = 1.
Proof.
  intros decode names. split; [|split].
  - intros Hclaim.
    destruct (Hclaim (GoJSON.JObject []) eq_refl) as [err Herr]. discriminate.
  - reflexivity.
  - eexists _, _, _. split; [vm_compute; reflexivity|]. by split.
Qed.

Lemma decode_failure_aborts_witness :
  let W := Sample.mistypedRetCode in
  exists h' req' cause,
    @aggregation W CoinExchangeRecords 1 [] Sample.exchangeRequest
    = Some (h', req',
            (None,
             Some (Errorf "error parsing coin exchange records response" cause))) /\
    Error cause
    = "json: cannot unmarshal string into Go struct field GetCoinExchangeRecordsResponse.retCode of type int".
Proof.
  intros W.
  destruct (proj1 decode_failure_aborts W CoinExchangeRecords
              Sample.exchangeRequest [] []
              (GoJSON.UnmarshalTypeError "string" "GetCoinExchangeRecordsResponse"
                 "retCode" "int") 0)
    as [req' Hrun].
  - exact I.
  - constructor.
  - reflexivity.
  - eexists _, req', _. split; [exact Hrun|reflexivity].
Defined.

(** * Further properties of the calls *)

Lemma callsFor_path {R} path (params : Params) (pages : list (PageResponse R)) :
  Forall (fun c : Call => fst c = path) (callsFor path params pages).
Proof.
  revert params. induction pages as [|p pages IH]; intros params; simpl;
    constructor; auto.
Qed.

(** Following cursors touches no key but [cursor]. *)
Lemma insert_paramsAfter {R} (params : Params) (pages : list (PageResponse R)) c :
  <["cursor" := c]> (paramsAfter params pages) = <["cursor" := c]> params.
Proof.
  revert params. induction pages as [|p pages IH]; intros params; [done|].
  by rewrite paramsAfter_cons, IH, insert_insert_eq.
Qed.

Section Further.
Context `{Collaborators}.

(** The request the two cursor-writing calls leave behind after [pages]. *)
Lemma requestAfter_pages ep (req : RequestOf ep)
    (pages : list (PageResponse (RecordOf ep))) :
  ep <> SessionSettlementRecords ->
  requestAfter ep req (paramsAfter (queryParamsOf ep req) pages)
  = match last pages with
    | Some page => withCursor ep req (Some (cursorOf page))
    | None => req
    end.
Proof.
  intros Hep. destruct ep; try done; unfold requestAfter;
    rewrite paramsAfter_cursor; (destruct (last pages); [done|]);
    rewrite queryParamsOf_cursor; apply withCursor_same.
Qed.

(** That request builds the mapping the run had reached. *)
Lemma queryParamsOf_requestAfter ep (req : RequestOf ep)
    (pages : list (PageResponse (RecordOf ep))) :
  ep <> SessionSettlementRecords ->
  queryParamsOf ep (requestAfter ep req (paramsAfter (queryParamsOf ep req) pages))
  = paramsAfter (queryParamsOf ep req) pages.
Proof.
  intros Hep. rewrite requestAfter_pages by done.
  destruct pages as [|p pages _] using rev_ind; [done|].
  by rewrite last_snoc, queryParamsOf_withCursor, paramsAfter_snoc,
    insert_paramsAfter.
Qed.

(** A failed [GetCoinExchangeRecords] or [GetDeliveryRecords] has already
    moved the caller's request to the page it failed on.  If the first
    call fails (in any phase) after [pages], and the server then serves
    [more ++ [final]] from that point, calling again with the request as
    the failed call left it returns the records of [more ++ [final]] and
    none of [pages]. *)
Theorem retry_resumes_at_failed_page ep (req : RequestOf ep) h
    (pages more : list (PageResponse (RecordOf ep))) final err n m :
  let reached := paramsAfter (queryParamsOf ep req) pages in
  let h1 := h ++ callsAt ep req pages ++ [(pathOf ep, reached)] in
  ep <> SessionSettlementRecords ->
  ServesAt ep h req pages ->
  Forall hasNext pages ->
  cycleError (fetchContextOf ep) (parseContextOf ep)
    (cycle (unmarshalOf ep) (respond (h ++ callsAt ep req pages) (pathOf ep, reached)))
  = Some err ->
  Serves (unmarshalOf ep) (pathOf ep) h1 reached (more ++ [final]) ->
  Forall hasNext more ->
  cursorOf final = "" ->
  exists req1 h2 req2 resp,
    aggregation ep (length pages + 1 + n) h req = Some (h1, req1, (None, Some err)) /\
    req1 = match last pages with
           | Some page => withCursor ep req (Some (cursorOf page))
           | None => req
           end /\
    aggregation ep (length more + 1 + m) h1 req1
    = Some (h2, req2, (Some resp, None)) /\
    List (Result resp)
    = concat (map (fun page => List (Result page)) (more ++ [final])) /\
    h2 = h1 ++ callsFor (pathOf ep) reached (more ++ [final]).
Proof.
  intros reached h1 Hep Hs Hn Herr Hs2 Hn2 Hl.
  exists (requestAfter ep req reached). eexists _, _, _.
  split; [|split; [|split; [|split]]].
  - rewrite aggregation_unfold, <- Nat.add_assoc.
    by rewrite (Aggregate_aborts _ _ _ _ pages err).
  - by apply requestAfter_pages.
  - rewrite aggregation_unfold, <- Nat.add_assoc.
    unfold reached at 1. rewrite queryParamsOf_requestAfter by done.
    by rewrite (Aggregate_drains _ _ _ _ more final).
  - reflexivity.
  - reflexivity.
Qed.

(** After a successful run over two or more pages, the same two calls
    have left the last non-empty cursor in the request: calling again with
    that request does not start over.  Its first call asks for the position
    of the last page, and it returns only what the server serves from
    there. *)
Theorem second_call_starts_at_last_page ep (req : RequestOf ep) h
    (pages more : list (PageResponse (RecordOf ep))) final final2 n m :
  let reached := paramsAfter (queryParamsOf ep req) pages in
  let h1 := h ++ callsAt ep req (pages ++ [final]) in
  ep <> SessionSettlementRecords ->
  ServesAt ep h req (pages ++ [final]) ->
  Forall hasNext pages ->
  cursorOf final = "" ->
  Serves (unmarshalOf ep) (pathOf ep) h1 reached (more ++ [final2]) ->
  Forall hasNext more ->
  cursorOf final2 = "" ->
  exists req1 ret1 h2 req2 resp,
    aggregation ep (length pages + 1 + n) h req = Some (h1, req1, ret1) /\
    queryParamsOf ep req1 = reached /\
    reached !! "cursor" = match last pages with
                          | Some page => Some (cursorOf page)
                          | None => cursorFieldOf ep req
                          end /\
    aggregation ep (length more + 1 + m) h1 req1
    = Some (h2, req2, (Some resp, None)) /\
    h2 !! length h1 = Some (pathOf ep, reached) /\
    List (Result resp)
    = concat (map (fun page => List (Result page)) (more ++ [final2])) /\
    h2 = h1 ++ callsFor (pathOf ep) reached (more ++ [final2]).
Proof.
  intros reached h1 Hep Hs Hn Hl Hs2 Hn2 Hl2.
  exists (requestAfter ep req reached). eexists _, _, _, _.
  split; [|split; [|split; [|split; [|split; [|split]]]]].
  - rewrite aggregation_unfold, <- Nat.add_assoc.
    by rewrite (Aggregate_drains _ _ _ _ pages final).
  - by apply queryParamsOf_requestAfter.
  - unfold reached. rewrite paramsAfter_cursor.
    destruct (last pages); [done|]. apply queryParamsOf_cursor.
  - rewrite aggregation_unfold, <- Nat.add_assoc.
    unfold reached at 1. rewrite queryParamsOf_requestAfter by done.
    by rewrite (Aggregate_drains _ _ _ _ more final2).
  - rewrite lookup_app_r by done. rewrite Nat.sub_diag.
    destruct more; reflexivity.
  - reflexivity.
  - reflexivity.
Qed.

End Further.

Lemma retry_resumes_at_failed_page_witness :
  let W := Sample.flaky in
  exists h1 req1 err h2 req2 resp,
    @aggregation W DeliveryRecords 2 [] Sample.deliveryRequest
    = Some (h1, req1, (None, Some err)) /\
    req1 = GetDeliveryRecordRequest.setCursor Sample.deliveryRequest "X" /\
    @aggregation W DeliveryRecords 1 h1 req1
    = Some (h2, req2, (Some resp, None)) /\
    List (Result resp) = ["c"] /\
    length h2 = 3.
Proof.
  intros W.
  destruct (@retry_resumes_at_failed_page W DeliveryRecords Sample.deliveryRequest
              [] [Sample.P1] [] Sample.P2
              (Errorf "error fetching delivery records"
                 (errorString "connection reset")) 0 0)
    as (req1 & h2 & req2 & resp & Hfirst & Hreq & Hsecond & Hrecords & Hcalls).
  - discriminate.
  - vm_compute. auto.
  - repeat constructor. discriminate.
  - reflexivity.
  - vm_compute. auto.
  - constructor.
  - reflexivity.
  - eexists _, req1, _, h2, req2, resp. split; [exact Hfirst|]. split; [exact Hreq|].
    split; [exact Hsecond|]. split; [exact Hrecords|]. by rewrite Hcalls.
Defined.

Lemma second_call_starts_at_last_page_witness :
  let W := Sample.twoPages "orderBody" in
  exists h1 req1 ret1 h2 req2 resp,
    @aggregation W CoinExchangeRecords 2 [] Sample.exchangeRequest
    = Some (h1, req1, ret1) /\
    GetCoinExchangeRecordsRequest.queryParams req1 !! "cursor" = Some "X" /\
    @aggregation W CoinExchangeRecords 1 h1 req1
    = Some (h2, req2, (Some resp, None)) /\
    List (Result resp) = ["c"] /\
    length h2 = 3.
Proof.
  intros W.
  destruct (@second_call_starts_at_last_page W CoinExchangeRecords
              Sample.exchangeRequest [] [Sample.P1] [] Sample.P2 Sample.P2 0 0)
    as (req1 & ret1 & h2 & req2 & resp & Hfirst & Hparams & Hcursor & Hsecond & _
        & Hrecords & Hcalls).
  - discriminate.
  - vm_compute. auto.
  - repeat constructor. discriminate.
  - reflexivity.
  - vm_compute. auto.
  - constructor.
  - reflexivity.
  - eexists _, req1, ret1, h2, req2, resp. split; [exact Hfirst|].
    split; [|split; [exact Hsecond|split; [exact Hrecords|by rewrite Hcalls]]].
    change (GetCoinExchangeRecordsRequest.queryParams req1)
      with (queryParamsOf CoinExchangeRecords req1).
    by rewrite Hparams, Hcursor.
Defined.

Section Further2.
Context `{Collaborators}.

(** A failure of the re-encoding step on the response that follows
    [pages] ends each paginated call at once: a nil response, the encoder's
    own error without any context added, and no further call. *)
Theorem encode_failure_aborts ep (req : RequestOf ep) h
    (pages : list (PageResponse (RecordOf ep))) response cause n :
  let reached := paramsAfter (queryParamsOf ep req) pages in
  ServesAt ep h req pages ->
  Forall hasNext pages ->
  respond (h ++ callsAt ep req pages) (pathOf ep, reached) = inr response ->
  json_Marshal response = inl cause ->
  exists req',
    aggregation ep (length pages + 1 + n) h req
    = Some (h ++ callsAt ep req pages ++ [(pathOf ep, reached)], req',
            (None, Some cause)).
Proof.
  intros reached Hs Hn Hget Hdata. eexists.
  rewrite aggregation_unfold, <- Nat.add_assoc.
  rewrite (Aggregate_aborts _ _ _ _ pages cause); try done.
  unfold callsAt, reached in Hget. unfold cycle. by rewrite Hget, Hdata.
Qed.

(** Whatever a finished paginated call has done to the call history, it
    has only added to it: the earlier calls are still there, at least one
    call was made, and every call made went to the endpoint's own path. *)
Theorem calls_stay_on_the_endpoint ep fuel h (req : RequestOf ep) h' req' ret :
  aggregation ep fuel h req = Some (h', req', ret) ->
  exists made,
    h' = h ++ made /\ made <> [] /\ (length made <= fuel)%nat /\
    Forall (fun c : Call => fst c = pathOf ep) made /\
    made !! 0 = Some (pathOf ep, queryParamsOf ep req).
Proof.
  rewrite aggregation_unfold.
  destruct (Aggregate _ _ _ _ _ _ _ _) as [[[h1 params1] exit]|] eqn:Hagg;
    [|done].
  intros [= <- <- <-].
  apply Aggregate_inv in Hagg as (pages & _ & _ & Hlen & -> & -> & _).
  eexists. split; [reflexivity|]. split; [|split; [|split]].
  - by destruct (callsFor _ _ pages).
  - rewrite length_app, callsFor_length. simpl. lia.
  - apply Forall_app. split; [apply callsFor_path|by repeat constructor].
  - by destruct pages.
Qed.

(** Each of the five calls returns either a response and a nil error, or
    a nil response and an error: never both, never neither. *)
Theorem response_xor_error :
  (forall ep fuel h (req : RequestOf ep) h' req' resp err,
     aggregation ep fuel h req = Some (h', req', (resp, err)) ->
     (is_Some resp /\ err = None) \/ (resp = None /\ is_Some err)) /\
  (forall h req,
     let '(resp, err) := snd (GetAssetInfo h req) in
     (is_Some resp /\ err = None) \/ (resp = None /\ is_Some err)) /\
  (forall h req,
     let '(resp, err) := snd (GetAllCoinsBalance h req) in
     (is_Some resp /\ err = None) \/ (resp = None /\ is_Some err)).
Proof.
  split; [|split].
  - intros ep fuel h req h' req' resp err. rewrite aggregation_unfold.
    destruct (Aggregate _ _ _ _ _ _ _ _) as [[[h1 params1] [records|e]]|];
      simpl; [| |done]; intros [= <- <- <- <-]; [left|right]; eauto.
  - intros h req. unfold GetAssetInfo, client_Get.
    destruct (respond _ _) as [e|response]; simpl; [right; eauto|].
    destruct (json_Marshal response) as [e|data]; simpl; [right; eauto|].
    destruct (json_Unmarshal_AssetInfo data); simpl; [right|left]; eauto.
  - intros h req. unfold GetAllCoinsBalance, client_Get.
    destruct (respond _ _) as [e|response]; simpl; [right; eauto|].
    destruct (json_Marshal response) as [e|data]; simpl; [right; eauto|].
    destruct (json_Unmarshal_AllCoinsBalance data); simpl; [right|left]; eauto.
Qed.

(** An error returned by [GetAssetInfo] or [GetAllCoinsBalance] is one of
    three: the transport error under "error fetching ...", the decoder's
    error under "error parsing ...", each with the cause kept under
    [Unwrap], or the encoder's error as it is. *)
Theorem single_request_errors h (reqA : GetAssetInfoRequest.t)
    (reqB : GetAllCoinsBalanceRequest.t) resp err :
  let callA := ("/v5/asset/transfer/query-asset-info",
                GetAssetInfoRequest.queryParams reqA) in
  let callB := ("/v5/asset/transfer/query-account-coins-balance",
                GetAllCoinsBalanceRequest.queryParams reqB) in
  (snd (GetAssetInfo h reqA) = (resp, Some err) ->
   (exists cause, respond h callA = inl cause /\
      err = Errorf "error fetching asset information" cause /\
      Unwrap err = Some cause) \/
   (exists response, respond h callA = inr response /\
      json_Marshal response = inl err) \/
   (exists response data cause, respond h callA = inr response /\
      json_Marshal response = inr data /\
      json_Unmarshal_AssetInfo data = inl cause /\
      err = Errorf "error parsing asset information response" cause /\
      Unwrap err = Some cause)) /\
  (forall resp' : option GetAllCoinsBalanceResponse,
   snd (GetAllCoinsBalance h reqB) = (resp', Some err) ->
   (exists cause, respond h callB = inl cause /\
      err = Errorf "error fetching all coins balance" cause /\
      Unwrap err = Some cause) \/
   (exists response, respond h callB = inr response /\
      json_Marshal response = inl err) \/
   (exists response data cause, respond h callB = inr response /\
      json_Marshal response = inr data /\
      json_Unmarshal_AllCoinsBalance data = inl cause /\
      err = Errorf "error parsing all coins balance response" cause /\
      Unwrap err = Some cause)).
Proof.
  intros callA callB. split.
  - unfold GetAssetInfo, client_Get. fold callA.
    destruct (respond h callA) as [e|response]; simpl.
    { intros [= _ <-]. left. eauto. }
    destruct (json_Marshal response) as [e|data] eqn:Hdata; simpl.
    { intros [= _ <-]. right. left. eauto. }
    destruct (json_Unmarshal_AssetInfo data) as [e|ok] eqn:Hok; simpl; [|done].
    intros [= _ <-]. right. right. eauto 10.
  - intros resp'. unfold GetAllCoinsBalance, client_Get. fold callB.
    destruct (respond h callB) as [e|response]; simpl.
    { intros [= _ <-]. left. eauto. }
    destruct (json_Marshal response) as [e|data] eqn:Hdata; simpl.
    { intros [= _ <-]. right. left. eauto. }
    destruct (json_Unmarshal_AllCoinsBalance data) as [e|ok] eqn:Hok; simpl;
      [|done].
    intros [= _ <-]. right. right. eauto 10.
Qed.

End Further2.

Lemma encode_failure_aborts_witness :
  let W := Sample.secondUnencodable in
  exists h' req',
    @aggregation W SessionSettlementRecords 2 [] Sample.settlementRequest
    = Some (h', req', (None, Some (errorString "json: unsupported value"))) /\
    length h' = 2.
Proof.
  intros W.
  destruct (@encode_failure_aborts W SessionSettlementRecords
              Sample.settlementRequest [] [Sample.P1] GoJSON.JNull
              (errorString "json: unsupported value") 0)
    as [req' Hrun].
  - vm_compute. auto.
  - repeat constructor. discriminate.
  - reflexivity.
  - reflexivity.
  - eexists _, req'. split; [exact Hrun|reflexivity].
Defined.

Lemma calls_stay_on_the_endpoint_witness :
  let W := Sample.twoPages "list" in
  exists h' req' ret made,
    @aggregation W DeliveryRecords 2 [("/v5/other", ∅)] Sample.deliveryRequest
    = Some (h', req', ret) /\
    h' = [("/v5/other", ∅)] ++ made /\ made <> [] /\
    Forall (fun c : Call => fst c = "/v5/asset/delivery-record") made.
Proof.
  intros W.
  destruct (@aggregation W DeliveryRecords 2 [("/v5/other", ∅)]
              Sample.deliveryRequest) as [[[h' req'] ret]|] eqn:Hrun;
    [|vm_compute in Hrun; discriminate].
  destruct (@calls_stay_on_the_endpoint W DeliveryRecords 2 [("/v5/other", ∅)]
              Sample.deliveryRequest h' req' ret Hrun)
    as (made & Hh & Hne & _ & Hpath & _).
  by exists h', req', ret, made.
Defined.

Lemma response_xor_error_witness :
  let W := Sample.flaky in
  exists h' req' resp err,
    @aggregation W DeliveryRecords 2 [] Sample.deliveryRequest
    = Some (h', req', (resp, err)) /\
    ((is_Some resp /\ err = None) \/ (resp = None /\ is_Some err)).
Proof.
  intros W.
  destruct (@aggregation W DeliveryRecords 2 [] Sample.deliveryRequest)
    as [[[h' req'] [resp err]]|] eqn:Hrun;
    [|vm_compute in Hrun; discriminate].
  exists h', req', resp, err. split; [done|].
  exact (proj1 (@response_xor_error W) DeliveryRecords 2 []
           Sample.deliveryRequest h' req' resp err Hrun).
Defined.

Lemma single_request_errors_witness :
  let W := Sample.offline in
  let req := GetAssetInfoRequest.mk "SPOT" None in
  exists err,
    snd (@GetAssetInfo W [] req) = (None, Some err) /\
    Unwrap err = Some (errorString "EOF").
Proof.
  intros W req.
  exists (Errorf "error fetching asset information" (errorString "EOF")).
  split; [reflexivity|].
  destruct (proj1 (@single_request_errors W [] req
                     (GetAllCoinsBalanceRequest.mk None "UNIFIED" None None)
                     None
                     (Errorf "error fetching asset information"
                        (errorString "EOF"))) eq_refl)
    as [(cause & Hget & _ & Hcause)|[(response & Hget & _)|
        (response & data & cause & Hget & _)]].
  - injection Hget as <-. exact Hcause.
  - discriminate Hget.
  - discriminate Hget.
Defined.

Section Further3.
Context `{Collaborators}.

(** However a paginated call ends, with a response or with an error, the
    only field of the caller's request it can have changed is [Cursor];
    for [GetCoinExchangeRecords] and [GetDeliveryRecords] that field then
    holds the cursor sent with the last call of the run. *)
Theorem request_changes_only_cursor ep fuel h (req : RequestOf ep) h' req' ret :
  aggregation ep fuel h req = Some (h', req', ret) ->
  withCursor ep req' (cursorFieldOf ep req) = req /\
  (ep <> SessionSettlementRecords ->
   exists hprev params,
     h' = hprev ++ [(pathOf ep, params)] /\
     cursorFieldOf ep req' = params !! "cursor").
Proof.
  rewrite aggregation_unfold.
  destruct (Aggregate _ _ _ _ _ _ _ _) as [[[h1 params1] exit]|] eqn:Hagg;
    [|done].
  intros [= <- <- <-].
  apply Aggregate_inv in Hagg as (pages & _ & _ & _ & _ & -> & _).
  split.
  - destruct ep; unfold requestAfter;
      rewrite ?withCursor_withCursor; apply withCursor_same.
  - intros Hep. eexists _, _. split; [by rewrite app_assoc|].
    destruct ep; try done; unfold requestAfter;
      by rewrite cursorFieldOf_withCursor.
Qed.

End Further3.

Lemma request_changes_only_cursor_witness :
  let W := Sample.flaky in
  exists h' req' ret,
    @aggregation W DeliveryRecords 2 [] Sample.deliveryRequest
    = Some (h', req', ret) /\
    withCursor DeliveryRecords req' None = Sample.deliveryRequest /\
    GetDeliveryRecordRequest.Cursor req' = Some "X".
Proof.
  intros W.
  destruct (@aggregation W DeliveryRecords 2 [] Sample.deliveryRequest)
    as [[[h' req'] ret]|] eqn:Hrun; [|vm_compute in Hrun; discriminate].
  destruct (@request_changes_only_cursor W DeliveryRecords 2 []
              Sample.deliveryRequest h' req' ret Hrun) as [Hframe _].
  exists h', req', ret. split; [done|]. split; [exact Hframe|].
  vm_compute in Hrun. by injection Hrun as _ <- _.
Defined.
